(** * passSafe-BE: the password vault controller

    A shallow embedding of [src/controllers/password.controller.ts].

    The six Express handlers are functions from the request's inputs and the
    state of the [passwords] collection to the new state and the outcome of
    the handler ([res.status(..).json(..)], [next(new ErrorHandler(..))], or
    a rejected promise forwarded by [CatchAsyncError]).

    Mongoose queries are interpreted over a list of documents kept in
    insertion order.  A query document such as [{ _id: id, user: userId }] is
    kept as data (a list of conditions), so that "the query filters on the
    owner" is a statement about the value the handler builds. *)

From Stdlib Require Import List String Ascii ZArith NArith Lia Bool Arith
  DecimalString DecimalNat DecimalFacts.
Import ListNotations.

Local Open Scope string_scope.

(** ** Values *)

(** Mongo's [ObjectId]: a 12-byte value.  Route parameters and body fields
    holding ids are taken after Mongoose has cast them. *)
Definition ObjectId := N.

(** The JSON values that occur in a document or a response payload.
    [JUndefined] is the value of a property read from a path the document
    does not have. *)
#[warnings="-register-all"]
Inductive JValue : Type :=
| JUndefined
| JNull
| JBool (b : bool)
| JNum (z : Z)
| JStr (s : string)
| JOid (i : ObjectId)
| JObj (fields : list (string * JValue)).

Definition JObject := list (string * JValue).

(** A value or a thrown exception (a rejected promise). *)
Inductive Result (A : Type) : Type :=
| Ok (a : A)
| Throw (message : string).
Arguments Ok {A} a.
Arguments Throw {A} message.

(** ** Documents of the passwords collection *)

(** [username: { encUsername, iv }] *)
Record UsernameField := { encUsername : string; username_iv : string }.

(** [password: { encPassword, iv }] *)
Record PasswordField := { encPassword : string; password_iv : string }.

(** Modelled from the spec: the schema in [models/password.model], which is
    not part of the sources at hand.  The paths are those [addPassword]
    writes and [getPassword] reads, with the two timestamps of the spec's
    data model.  The four top-level [..Iv] paths are never written by
    [addPassword]; they are optional. *)
Record PasswordDoc := {
  _id : ObjectId;
  user : ObjectId;
  websiteName : string;
  url : string;
  username : UsernameField;
  password : PasswordField;
  passwordStrength : JValue;
  websiteNameIv : option string;
  urlIv : option string;
  usernameIv : option string;
  passwordIv : option string;
  createdAt : N;
  updatedAt : N
}.

(** Modelled from the spec: two options of the schema in
    [models/password.model] that the controller cannot see and that change
    what the store does with the controller's calls.  The schema is absent,
    so both are parameters: whether it declares a unique compound index on
    [(user, websiteName, url)], and whether it declares the [user] path
    [immutable] (Mongoose then drops that path from every update). *)
Record SchemaOptions := {
  unique_user_websiteName_url : bool;
  immutable_user : bool
}.

(** The collection: documents in insertion order and the source of fresh
    ids. *)
Record Store := { docs : list PasswordDoc; nextId : ObjectId }.

Definition emptyStore : Store := {| docs := []; nextId := 0%N |}.

(** ** Query documents *)

Inductive Cond : Type :=
| c_id (i : ObjectId)               (* _id: i *)
| c_id_in (ids : list ObjectId)     (* _id: { $in: ids } *)
| c_user (u : ObjectId)             (* user: u *)
| c_websiteName (s : string)        (* websiteName: s *)
| c_url (s : string).               (* url: s *)

Definition Filter := list Cond.

Definition oid_in (i : ObjectId) (ids : list ObjectId) : bool :=
  existsb (N.eqb i) ids.

Definition sat (c : Cond) (d : PasswordDoc) : bool :=
  match c with
  | c_id i => N.eqb (_id d) i
  | c_id_in ids => oid_in (_id d) ids
  | c_user u => N.eqb (user d) u
  | c_websiteName s => String.eqb (websiteName d) s
  | c_url s => String.eqb (url d) s
  end.

Definition matches (f : Filter) (d : PasswordDoc) : bool :=
  forallb (fun c => sat c d) f.

(** ** The Mongoose model operations the controller calls *)

Module PasswordModel.

(** [findOne(filter)]: the first matching document. *)
Definition findOne (f : Filter) (s : Store) : option PasswordDoc :=
  find (matches f) (docs s).

(** The fields [create] receives. *)
Record NewDoc := {
  new_user : ObjectId;
  new_websiteName : string;
  new_url : string;
  new_username : UsernameField;
  new_password : PasswordField;
  new_passwordStrength : JValue
}.

Definition mkDoc (i : ObjectId) (now : N) (n : NewDoc) : PasswordDoc :=
  {| _id := i;
     user := new_user n;
     websiteName := new_websiteName n;
     url := new_url n;
     username := new_username n;
     password := new_password n;
     passwordStrength := new_passwordStrength n;
     websiteNameIv := None;
     urlIv := None;
     usernameIv := None;
     passwordIv := None;
     createdAt := now;
     updatedAt := now |}.

Definition same_entry (n : NewDoc) (d : PasswordDoc) : bool :=
  N.eqb (user d) (new_user n)
  && String.eqb (websiteName d) (new_websiteName n)
  && String.eqb (url d) (new_url n).

(** [create(fields)]: inserts a document with a fresh [_id]; with the
    unique index declared, a colliding insert throws E11000. *)
Definition create (opts : SchemaOptions) (now : N) (n : NewDoc) (s : Store)
  : Result (Store * PasswordDoc) :=
  if unique_user_websiteName_url opts && existsb (same_entry n) (docs s)
  then Throw "E11000 duplicate key error collection: passwords"
  else
    let d := mkDoc (nextId s) now n in
    Ok ({| docs := docs s ++ [d]; nextId := N.succ (nextId s) |}, d).

(** [details.save()] on the document [create] has just returned: it has no
    modified path, nothing is written. *)
Definition save (d : PasswordDoc) (s : Store) : Store := s.

(** [req.body] of the edit route as Mongoose sees it after casting it
    against the schema: each top-level path is present or not.  Keys the
    schema does not have are dropped by Mongoose and have no field here. *)
Record Updates := {
  set__id : option ObjectId;
  set_user : option ObjectId;
  set_websiteName : option string;
  set_url : option string;
  set_username : option UsernameField;
  set_password : option PasswordField;
  set_passwordStrength : option JValue;
  set_websiteNameIv : option string;
  set_urlIv : option string;
  set_usernameIv : option string;
  set_passwordIv : option string
}.

Definition noUpdates : Updates :=
  {| set__id := None; set_user := None; set_websiteName := None;
     set_url := None; set_username := None; set_password := None;
     set_passwordStrength := None; set_websiteNameIv := None;
     set_urlIv := None; set_usernameIv := None; set_passwordIv := None |}.

Definition orElse {A : Type} (o : option A) (a : A) : A :=
  match o with Some x => x | None => a end.

Definition orKeep {A : Type} (o cur : option A) : option A :=
  match o with Some x => Some x | None => cur end.

(** [{ $set: updates }] applied to one document; [updatedAt] is refreshed. *)
Definition applySet (opts : SchemaOptions) (now : N) (u : Updates)
  (d : PasswordDoc) : PasswordDoc :=
  {| _id := _id d;
     user := if immutable_user opts then user d
             else orElse (set_user u) (user d);
     websiteName := orElse (set_websiteName u) (websiteName d);
     url := orElse (set_url u) (url d);
     username := orElse (set_username u) (username d);
     password := orElse (set_password u) (password d);
     passwordStrength := orElse (set_passwordStrength u) (passwordStrength d);
     websiteNameIv := orKeep (set_websiteNameIv u) (websiteNameIv d);
     urlIv := orKeep (set_urlIv u) (urlIv d);
     usernameIv := orKeep (set_usernameIv u) (usernameIv d);
     passwordIv := orKeep (set_passwordIv u) (passwordIv d);
     createdAt := createdAt d;
     updatedAt := now |}.

Fixpoint updateFirst (f : Filter) (g : PasswordDoc -> PasswordDoc)
  (l : list PasswordDoc) : list PasswordDoc :=
  match l with
  | [] => []
  | d :: r => if matches f d then g d :: r else d :: updateFirst f g r
  end.

(** An update that would give the matched document another [_id] is
    refused by the server. *)
Definition changes_id (u : Updates) (d : PasswordDoc) : bool :=
  match set__id u with
  | Some i => negb (N.eqb i (_id d))
  | None => false
  end.

(** The collection without the first document that matches. *)
Fixpoint removeFirst (f : Filter) (l : list PasswordDoc) : list PasswordDoc :=
  match l with
  | [] => []
  | d :: r => if matches f d then r else d :: removeFirst f r
  end.

(** Two documents with the same key of the unique index. *)
Definition sameKey (a b : PasswordDoc) : bool :=
  N.eqb (user a) (user b)
  && String.eqb (websiteName a) (websiteName b)
  && String.eqb (url a) (url b).

(** With the unique index declared, the server refuses an update that moves
    the matched document [d], as [e], onto the key of another document. *)
Definition collides (opts : SchemaOptions) (f : Filter) (d e : PasswordDoc)
  (s : Store) : bool :=
  unique_user_websiteName_url opts
  && negb (sameKey e d)
  && existsb (sameKey e) (removeFirst f (docs s)).

(** [findOneAndUpdate(filter, { $set: updates }, { new: true })]: updates
    the first matching document and returns it as it is after the
    update; a refused update throws and writes nothing.  The validators
    [runValidators] would run belong to the absent schema; none is
    assumed. *)
Definition findOneAndUpdate (opts : SchemaOptions) (f : Filter) (u : Updates)
  (now : N) (s : Store) : Result (Store * option PasswordDoc) :=
  match findOne f s with
  | None => Ok (s, None)
  | Some d =>
      if changes_id u d
      then Throw "Performing an update on the path '_id' would modify the immutable field '_id'"
      else if collides opts f d (applySet opts now u d) s
      then Throw "E11000 duplicate key error collection: passwords"
      else Ok ({| docs := updateFirst f (applySet opts now u) (docs s);
                  nextId := nextId s |},
               Some (applySet opts now u d))
  end.

Definition withDocs (s : Store) (l : list PasswordDoc) : Store :=
  {| docs := l; nextId := nextId s |}.

(** [deleteOne(filter)] and [deleteMany(filter)] with their
    [deletedCount]. *)
Definition deleteOne (f : Filter) (s : Store) : Store * nat :=
  let l := removeFirst f (docs s) in
  (withDocs s l, List.length (docs s) - List.length l).

Definition deleteMany (f : Filter) (s : Store) : Store * nat :=
  let l := filter (fun d => negb (matches f d)) (docs s) in
  (withDocs s l, List.length (docs s) - List.length l).

End PasswordModel.

(** ** Outcomes of a handler *)

(** [new ErrorHandler(message, statusCode)] *)
Record ErrorHandler := { message : string; statusCode : nat }.

(** The JavaScript Numbers [parseInt] can return: NaN, an integer that a
    double holds exactly (0 and -0 are both [Finite 0]), or an infinity. *)
Inductive Number : Type :=
| NaN
| Finite (z : Z)
| Infinite (negative : bool).

Record PageInfo := {
  page : Number;
  limit : Number;
  totalCount : nat;
  totalPages : Z
}.

(** The JSON bodies the handlers send. *)
Inductive Body : Type :=
| BMessage (success : bool) (msg : string)
    (* { success, message } *)
| BList (info : PageInfo) (data : list JObject)
    (* { success: true, ...pageInfo, data } *)
| BData (data : PasswordDoc)
    (* { success: true, data } *)
| BUpdated (msg : string) (data : PasswordDoc).
    (* { success: true, message, data } *)

Inductive Outcome : Type :=
| Json (status : nat) (body : Body)   (* res.status(status).json(body) *)
| Next (err : ErrorHandler)           (* next(new ErrorHandler(..)) *)
| Rejected (reason : string).         (* thrown; CatchAsyncError forwards it *)

(** ** [parseInt] and the [||] default *)

Module JS.

(** A string is the UTF-8 encoding of the JavaScript string. *)

(** The one-byte members of ECMAScript's WhiteSpace and LineTerminator:
    TAB, LF, VT, FF, CR, SP. *)
Definition isWhiteSpace (c : ascii) : bool :=
  let n := nat_of_ascii c in
  ((n =? 9) || (n =? 10) || (n =? 11) || (n =? 12) || (n =? 13)
   || (n =? 32))%nat.

(** The first byte of the other members. *)
Definition isWhiteSpaceLead (c : ascii) : bool :=
  let n := nat_of_ascii c in
  ((n =? 194) || (n =? 225) || (n =? 226) || (n =? 227) || (n =? 239))%nat.

(** U+00A0, as C2 A0. *)
Definition isWhiteSpace2 (c1 c2 : ascii) : bool :=
  ((nat_of_ascii c1 =? 194) && (nat_of_ascii c2 =? 160))%nat.

(** U+1680 (E1 9A 80); U+2000 to U+200A, U+2028, U+2029, U+202F
    (E2 80 80..8A, A8, A9, AF); U+205F (E2 81 9F); U+3000 (E3 80 80);
    U+FEFF (EF BB BF). *)
Definition isWhiteSpace3 (c1 c2 c3 : ascii) : bool :=
  let a := nat_of_ascii c1 in
  let b := nat_of_ascii c2 in
  let c := nat_of_ascii c3 in
  ((a =? 225) && (b =? 154) && (c =? 128)
   || (a =? 226) && (b =? 128)
      && ((128 <=? c) && (c <=? 138) || (c =? 168) || (c =? 169) || (c =? 175))
   || (a =? 226) && (b =? 129) && (c =? 159)
   || (a =? 227) && (b =? 128) && (c =? 128)
   || (a =? 239) && (b =? 187) && (c =? 191))%nat.

(** Skips the leading StrWhiteSpaceChar code points. *)
Fixpoint trimStart (s : string) : string :=
  match s with
  | String c1 r1 =>
      if isWhiteSpace c1 then trimStart r1
      else if isWhiteSpaceLead c1 then
        match r1 with
        | String c2 r2 =>
            if isWhiteSpace2 c1 c2 then trimStart r2
            else
              match r2 with
              | String c3 r3 =>
                  if isWhiteSpace3 c1 c2 c3 then trimStart r3 else s
              | EmptyString => s
              end
        | EmptyString => s
        end
      else s
  | EmptyString => EmptyString
  end.

Definition digitValue (c : ascii) : option Z :=
  let n := Z.of_nat (nat_of_ascii c) in
  if ((48 <=? n) && (n <=? 57))%Z then Some (n - 48)%Z
  else if ((97 <=? n) && (n <=? 122))%Z then Some (n - 87)%Z
  else if ((65 <=? n) && (n <=? 90))%Z then Some (n - 55)%Z
  else None.

Definition radixDigit (R : Z) (c : ascii) : option Z :=
  match digitValue c with
  | Some v => if (v <? R)%Z then Some v else None
  | None => None
  end.

(** The digits of the longest prefix made of radix-R digits. *)
Fixpoint digitsPrefix (R : Z) (s : string) : list Z :=
  match s with
  | String c r =>
      match radixDigit R c with
      | Some v => v :: digitsPrefix R r
      | None => []
      end
  | EmptyString => []
  end.

Definition mathInt (R : Z) (ds : list Z) : Z :=
  fold_left (fun acc d => acc * R + d)%Z ds 0%Z.

Definition stripSign (s : string) : Z * string :=
  match s with
  | String "-" r => ((-1)%Z, r)
  | String "+" r => (1%Z, r)
  | _ => (1%Z, s)
  end.

Definition stripPrefix (s : string) : Z * string :=
  match s with
  | String "0" (String "x" r) => (16%Z, r)
  | String "0" (String "X" r) => (16%Z, r)
  | _ => (10%Z, s)
  end.

(** The Number for a mathematical integer: the nearest double, ties to the
    even significand; an infinity from 2^1024 on.  A double has a
    significand of 53 bits, so [shift] is the number of low bits that do not
    fit. *)
Definition toDouble (z : Z) : Number :=
  let a := Z.abs z in
  let shift := (Z.log2 a - 52)%Z in
  if (shift <=? 0)%Z then Finite z
  else
    let unit := (2 ^ shift)%Z in
    let m := (a / unit)%Z in
    let r := (a mod unit)%Z in
    let half := (unit / 2)%Z in
    let m' := if (half <? r)%Z || ((half =? r)%Z && Z.odd m)
              then (m + 1)%Z else m in
    let v := (m' * unit)%Z in
    if (2 ^ 1024 <=? v)%Z then Infinite (z <? 0)%Z
    else Finite (Z.sgn z * v)%Z.

(** [parseInt(v)] with no radix, for [v] a string or [undefined].  The
    integer the digits denote is rounded exactly, as V8 does it (ECMAScript
    lets an implementation drop the decimal digits after the 20th). *)
Definition parseInt (v : option string) : Number :=
  let inputString := match v with Some s => s | None => "undefined" end in
  let '(sign, s1) := stripSign (trimStart inputString) in
  let '(R, s2) := stripPrefix s1 in
  match digitsPrefix R s2 with
  | [] => NaN
  | ds => toDouble (sign * mathInt R ds)%Z
  end.

(** [n || d] for a Number [n]: NaN, 0 and -0 are falsy. *)
Definition orDefault (n : Number) (d : Z) : Number :=
  match n with
  | NaN => Finite d
  | Finite z => if (z =? 0)%Z then Finite d else Finite z
  | Infinite negative => Infinite negative
  end.

(** [1 <= n] *)
Definition atLeastOne (n : Number) : bool :=
  match n with
  | NaN => false
  | Finite z => (1 <=? z)%Z
  | Infinite negative => negb negative
  end.

(** [n < 0] *)
Definition isNegative (n : Number) : bool :=
  match n with
  | NaN => false
  | Finite z => (z <? 0)%Z
  | Infinite negative => negative
  end.

(** Lower case for the letters A to Z; other bytes are kept. *)
Definition toLowerAscii (c : ascii) : ascii :=
  let n := nat_of_ascii c in
  if (65 <=? n)%nat && (n <=? 90)%nat then ascii_of_nat (n + 32) else c.

Fixpoint toLowerCase (s : string) : string :=
  match s with
  | String c r => String (toLowerAscii c) (toLowerCase r)
  | EmptyString => EmptyString
  end.

(** [hay.includes(needle)] *)
Fixpoint includes (needle hay : string) : bool :=
  match hay with
  | EmptyString => prefix needle EmptyString
  | String _ r => prefix needle hay || includes needle r
  end.

(** [`${n}`] for a count. *)
Definition showNat (n : nat) : string :=
  NilEmpty.string_of_uint (Nat.to_uint n).

End JS.

(** ** Pagination *)

Module Pagination.

Record Page := { results : list PasswordDoc; pageInfo : PageInfo }.

(** Modelled from the spec: the search of [paginate] (absent) looks at
    string paths; these are the two the schema has. *)
Definition fieldValue (name : string) (d : PasswordDoc) : option string :=
  if String.eqb name "websiteName" then Some (websiteName d)
  else if String.eqb name "url" then Some (url d)
  else None.

(** Modelled from the spec: the search of [paginate] (absent), a
    case-insensitive substring test on each search field, any of them. *)
Definition searchHit (term : string) (fields : list string) (d : PasswordDoc)
  : bool :=
  existsb
    (fun f =>
       match fieldValue f d with
       | Some v => JS.includes (JS.toLowerCase term) (JS.toLowerCase v)
       | None => false
       end)
    fields.

(** Modelled from the spec: [paginate] (absent) with no search term keeps
    every document of the base filter. *)
Definition searchOk (searchTerm : option string) (fields : list string)
  (d : PasswordDoc) : bool :=
  match searchTerm with
  | None => true
  | Some term => searchHit term fields d
  end.

(** Modelled from the spec: the documents [paginate] (absent) pages over,
    in insertion order. *)
Definition selected (baseFilter : Filter) (searchTerm : option string)
  (fields : list string) (s : Store) : list PasswordDoc :=
  filter (fun d => matches baseFilter d && searchOk searchTerm fields d)
         (docs s).

(** Modelled from the spec: [paginate] (absent) clamps page and limit to at
    least 1 and takes the default when the Number is not one. *)
Definition clamp (default : Z) (n : Number) : Number :=
  match n with
  | NaN => Finite default
  | Finite z => Finite (Z.max 1 z)
  | Infinite true => Finite 1
  | Infinite false => Infinite false
  end.

(** Modelled from the spec: the page of [paginate] (absent) number [pg] of
    size [lim] holds the documents at positions [(pg - 1) * lim] to
    [pg * lim - 1]; an unbounded size leaves one page, an unbounded page
    number is past every document. *)
Definition pageOf (pg lim : Number) (all : list PasswordDoc)
  : list PasswordDoc :=
  match pg, lim with
  | Finite p, Finite l =>
      firstn (Z.to_nat l) (skipn (Z.to_nat ((p - 1) * l)) all)
  | Finite p, Infinite _ => if (p =? 1)%Z then all else []
  | _, _ => []
  end.

(** Modelled from the spec: the number of pages of size [lim] that
    [paginate] (absent) needs for [total] documents. *)
Definition pagesFor (lim : Number) (total : nat) : Z :=
  match lim with
  | Finite l => (Z.of_nat total + l - 1) / l
  | _ => if (total =? 0)%nat then 0 else 1
  end.

(** Modelled from the spec: [paginate] of [utils/pagination], which is not
    part of the sources at hand.  It returns one page of the documents that
    satisfy the base filter and the search, in insertion order, with the
    page information; a present search term is a case-insensitive substring
    test on each search field (any of them); page and limit default to 1
    and 10 and are clamped to at least 1. *)
Definition paginate (s : Store) (baseFilter : Filter)
  (searchTerm : option string) (searchFields : list string)
  (pg lim : Number) : Page :=
  let pg' := clamp 1 pg in
  let lim' := clamp 10 lim in
  let all := selected baseFilter searchTerm searchFields s in
  let total := List.length all in
  {| results := pageOf pg' lim' all;
     pageInfo := {| page := pg';
                    limit := lim';
                    totalCount := total;
                    totalPages := pagesFor lim' total |} |}.

End Pagination.

(** ** The controller *)

(** [req.body] of the add route. *)
Record AddBody := {
  body_websiteName : string;
  body_websiteUrl : string;
  body_username : string;
  body_password : string;
  body_usernameIv : string;
  body_passwordIv : string;
  body_passwordStrength : JValue
}.

(** [req.query] of the list route; [None] is an absent parameter. *)
Record Query := {
  query_page : option string;
  query_limit : option string;
  query_search : option string
}.

(** *** addPassword *)

Definition addPassword_filter (userId : ObjectId) (b : AddBody) : Filter :=
  [c_user userId; c_websiteName (body_websiteName b); c_url (body_websiteUrl b)].

Definition addPassword_fields (userId : ObjectId) (b : AddBody)
  : PasswordModel.NewDoc :=
  {| PasswordModel.new_user := userId;
     PasswordModel.new_websiteName := body_websiteName b;
     PasswordModel.new_url := body_websiteUrl b;
     PasswordModel.new_username :=
       {| encUsername := body_username b; username_iv := body_usernameIv b |};
     PasswordModel.new_password :=
       {| encPassword := body_password b; password_iv := body_passwordIv b |};
     PasswordModel.new_passwordStrength := body_passwordStrength b |}.

(** What [addPassword] does once [await PasswordModel.findOne(..)] has
    resolved to [existingPassword]. *)
Definition addPassword_continue (opts : SchemaOptions) (now : N)
  (userId : ObjectId) (b : AddBody) (existingPassword : option PasswordDoc)
  (s : Store) : Store * Outcome :=
  match existingPassword with
  | Some _ =>
      (s, Json 400 (BMessage false "Password already exists in the vault."))
  | None =>
      match PasswordModel.create opts now (addPassword_fields userId b) s with
      | Ok (s', details) =>
          (PasswordModel.save details s',
           Json 201 (BMessage true "Password information added successfully."))
      | Throw m => (s, Next {| message := m; statusCode := 500 |})
      end
  end.

Definition addPassword (opts : SchemaOptions) (now : N) (userId : ObjectId)
  (b : AddBody) (s : Store) : Store * Outcome :=
  addPassword_continue opts now userId b
    (PasswordModel.findOne (addPassword_filter userId b) s) s.

(** *** getPassword *)

Definition getPassword_page (q : Query) : Number :=
  JS.orDefault (JS.parseInt (query_page q)) 1.

Definition getPassword_limit (q : Query) : Number :=
  JS.orDefault (JS.parseInt (query_limit q)) 10.

Definition searchFields : list string := ["websiteName"].

Definition getPassword_filter (userId : ObjectId) : Filter := [c_user userId].

Definition optStr (o : option string) : JValue :=
  match o with Some s => JStr s | None => JUndefined end.

Definition usernameValue (u : UsernameField) : JValue :=
  JObj [("encUsername", JStr (encUsername u)); ("iv", JStr (username_iv u))].

Definition passwordValue (p : PasswordField) : JValue :=
  JObj [("encPassword", JStr (encPassword p)); ("iv", JStr (password_iv p))].

(** The object literal built for each entry of the page. *)
Definition passwordForClient (passwordEntry : PasswordDoc) : JObject :=
  [ ("id", JOid (_id passwordEntry));
    ("websiteName", JStr (websiteName passwordEntry));
    ("url", JStr (url passwordEntry));
    ("username", usernameValue (username passwordEntry));
    ("password", passwordValue (password passwordEntry));
    ("passwordStrength", passwordStrength passwordEntry);
    ("websiteNameIv", optStr (websiteNameIv passwordEntry));
    ("urlIv", optStr (urlIv passwordEntry));
    ("usernameIv", optStr (usernameIv passwordEntry));
    ("passwordIv", optStr (passwordIv passwordEntry)) ].

(** The page the handler asks for. *)
Definition getPassword_pageOf (userId : ObjectId) (q : Query) (s : Store)
  : Pagination.Page :=
  Pagination.paginate s (getPassword_filter userId) (query_search q)
    searchFields (getPassword_page q) (getPassword_limit q).

(** What the handler does with the page [paginate] returned. *)
Definition getPassword_respond (p : Pagination.Page) : Outcome :=
  if (List.length (Pagination.results p) =? 0)%nat
  then Next {| message := "No passwords found"; statusCode := 404 |}
  else Json 201 (BList (Pagination.pageInfo p)
                       (map passwordForClient (Pagination.results p))).

Definition getPassword (userId : ObjectId) (q : Query) (s : Store) : Outcome :=
  getPassword_respond (getPassword_pageOf userId q s).

(** *** getSinglePassword *)

Definition getSinglePassword_filter (userId id : ObjectId) : Filter :=
  [c_id id; c_user userId].

Definition getSinglePassword (userId id : ObjectId) (s : Store) : Outcome :=
  match PasswordModel.findOne (getSinglePassword_filter userId id) s with
  | None =>
      Next {| message := "Password not found or access denied.";
              statusCode := 404 |}
  | Some p => Json 200 (BData p)
  end.

(** *** editPassword *)

Definition editPassword_filter (userId passwordId : ObjectId) : Filter :=
  [c_id passwordId; c_user userId].

Definition editPassword (opts : SchemaOptions) (now : N)
  (userId passwordId : ObjectId) (updates : PasswordModel.Updates) (s : Store)
  : Store * Outcome :=
  match PasswordModel.findOneAndUpdate opts
          (editPassword_filter userId passwordId) updates now s with
  | Throw m => (s, Rejected m)
  | Ok (s', None) =>
      (s', Next {| message := "Password not found or not owned by the user";
                   statusCode := 404 |})
  | Ok (s', Some updatedPassword) =>
      (s', Json 200 (BUpdated "Password updated successfully" updatedPassword))
  end.

(** *** deleteSinglePassword *)

Definition deleteSinglePassword_filter (userId passwordId : ObjectId) : Filter :=
  [c_id passwordId; c_user userId].

(** [passwordId = None] is a falsy route parameter. *)
Definition deleteSinglePassword (userId : ObjectId)
  (passwordId : option ObjectId) (s : Store) : Store * Outcome :=
  match passwordId with
  | None =>
      (s, Next {| message := "Password ID is required."; statusCode := 400 |})
  | Some pid =>
      let '(s', deletedCount) :=
        PasswordModel.deleteOne (deleteSinglePassword_filter userId pid) s in
      if (deletedCount =? 0)%nat
      then (s', Next {| message := "Password not found or not owned by the user.";
                        statusCode := 404 |})
      else (s', Json 200 (BMessage true "Password has been successfully deleted."))
  end.

(** *** deleteMultiplePasswords *)

Definition deleteMultiplePasswords_filter (userId : ObjectId)
  (passwordIds : list ObjectId) : Filter :=
  [c_id_in passwordIds; c_user userId].

Definition deletedMessage (deletedCount : nat) : string :=
  JS.showNat deletedCount ++ " passwords have been successfully deleted.".

(** [passwordIds = None] is a body whose [passwordIds] is not an array. *)
Definition deleteMultiplePasswords (userId : ObjectId)
  (passwordIds : option (list ObjectId)) (s : Store) : Store * Outcome :=
  match passwordIds with
  | None | Some [] =>
      (s, Next {| message := "An array of password IDs is required.";
                  statusCode := 400 |})
  | Some ids =>
      let '(s', deletedCount) :=
        PasswordModel.deleteMany (deleteMultiplePasswords_filter userId ids) s in
      if (deletedCount =? 0)%nat
      then (s', Next {| message := "No passwords were deleted. They may not exist or not be owned by the user.";
                        statusCode := 404 |})
      else (s', Json 200 (BMessage true (deletedMessage deletedCount)))
  end.

(** ** Two addPassword requests in flight

    A handler runs without interruption between two [await]s.  For
    [addPassword] that leaves one point where another request can run:
    after [findOne] has answered and before the continuation inserts. *)

Inductive AddTask : Type :=
| Pending (now : N) (userId : ObjectId) (b : AddBody)
| Checked (now : N) (userId : ObjectId) (b : AddBody)
          (existingPassword : option PasswordDoc)
| Finished (out : Outcome).

Definition stepTask (opts : SchemaOptions) (t : AddTask) (s : Store)
  : Store * AddTask :=
  match t with
  | Pending now userId b =>
      (s, Checked now userId b
            (PasswordModel.findOne (addPassword_filter userId b) s))
  | Checked now userId b existingPassword =>
      let '(s', out) := addPassword_continue opts now userId b existingPassword s in
      (s', Finished out)
  | Finished out => (s, Finished out)
  end.

Record InFlight := { store : Store; first : AddTask; second : AddTask }.

Inductive Turn : Type := RunFirst | RunSecond.

Definition stepInFlight (opts : SchemaOptions) (x : InFlight) (t : Turn)
  : InFlight :=
  match t with
  | RunFirst =>
      let '(s', t') := stepTask opts (first x) (store x) in
      {| store := s'; first := t'; second := second x |}
  | RunSecond =>
      let '(s', t') := stepTask opts (second x) (store x) in
      {| store := s'; first := first x; second := t' |}
  end.

Definition runSchedule (opts : SchemaOptions) (x : InFlight)
  (schedule : list Turn) : InFlight :=
  fold_left (stepInFlight opts) schedule x.

(** The documents of one owner for one [(websiteName, url)]. *)
Definition entriesFor (userId : ObjectId) (name site : string) (s : Store)
  : list PasswordDoc :=
  filter (matches [c_user userId; c_websiteName name; c_url site]) (docs s).

(** ** Histories *)

(** The requests that can change the collection. *)
Inductive Request : Type :=
| ReqAdd (now : N) (userId : ObjectId) (b : AddBody)
| ReqEdit (now : N) (userId passwordId : ObjectId)
          (updates : PasswordModel.Updates)
| ReqDeleteOne (userId : ObjectId) (passwordId : option ObjectId)
| ReqDeleteMany (userId : ObjectId) (passwordIds : option (list ObjectId)).

Definition handle (opts : SchemaOptions) (r : Request) (s : Store)
  : Store * Outcome :=
  match r with
  | ReqAdd now userId b => addPassword opts now userId b s
  | ReqEdit now userId passwordId updates =>
      editPassword opts now userId passwordId updates s
  | ReqDeleteOne userId passwordId => deleteSinglePassword userId passwordId s
  | ReqDeleteMany userId passwordIds =>
      deleteMultiplePasswords userId passwordIds s
  end.

(** The collections the handlers can build, one request after the other,
    from the empty one. *)
Inductive reachable (opts : SchemaOptions) : Store -> Prop :=
| reachable_empty : reachable opts emptyStore
| reachable_step (r : Request) (s : Store) :
    reachable opts s -> reachable opts (fst (handle opts r s)).

(** ** Well-formed stores *)

(** Every id in the collection was handed out before [nextId]. *)
Definition wf (s : Store) : Prop :=
  Forall (fun d => (_id d < nextId s)%N) (docs s).

(** The documents of [s] that [userId] does not own. *)
Definition notOwnedBy (userId : ObjectId) (s : Store) : list PasswordDoc :=
  filter (fun d => negb (N.eqb (user d) userId)) (docs s).

(** The keys of the object [getPassword] sends for each entry. *)
Definition clientFields : list string :=
  ["id"; "websiteName"; "url"; "username"; "password"; "passwordStrength";
   "websiteNameIv"; "urlIv"; "usernameIv"; "passwordIv"].

(** [res.json] serialises with [JSON.stringify], which leaves out the
    properties whose value is [undefined]. *)
Definition isUndefined (v : JValue) : bool :=
  match v with JUndefined => true | _ => false end.

Definition stringified (o : JObject) : JObject :=
  filter (fun kv => negb (isUndefined (snd kv))) o.

(** Whether [parseInt] gives a negative number. *)
Definition parsesNegative (v : option string) : bool :=
  JS.isNegative (JS.parseInt v).

(** The two JSON answers of [addPassword]. *)
Definition createdMessage : Outcome :=
  Json 201 (BMessage true "Password information added successfully.").

Definition conflictMessage : Outcome :=
  Json 400 (BMessage false "Password already exists in the vault.").



Definition notFoundList : Outcome :=
  Next {| message := "No passwords found"; statusCode := 404 |}.

(** ** Predicates on collections and requests *)

(** What [addPassword] looks an entry up by. *)
Definition entryKey (d : PasswordDoc) : ObjectId * string * string :=
  (user d, websiteName d, url d).

(** No owner has two documents for one [(websiteName, url)]. *)
Definition uniqueEntries (s : Store) : Prop :=
  NoDup (map entryKey (docs s)).

(** No two documents share an [_id]. *)
Definition uniqueIds (s : Store) : Prop :=
  NoDup (map _id (docs s)).

(** [req.user._id] of a request. *)
Definition requester (r : Request) : ObjectId :=
  match r with
  | ReqAdd _ userId _ => userId
  | ReqEdit _ userId _ _ => userId
  | ReqDeleteOne userId _ => userId
  | ReqDeleteMany userId _ => userId
  end.

Definition isEdit (r : Request) : bool :=
  match r with ReqEdit _ _ _ _ => true | _ => false end.

(** An edit whose body carries a [user] key other than the requester, under
    a schema that lets the key through, hands the document over; every
    other request keeps owners. *)
Definition handsOver (opts : SchemaOptions) (r : Request) : bool :=
  match r with
  | ReqEdit _ userId _ updates =>
      negb (immutable_user opts)
      && match PasswordModel.set_user updates with
         | Some other => negb (N.eqb other userId)
         | None => false
         end
  | _ => false
  end.

(** Whether the check of [addPassword] finds an entry. *)
Definition hasEntry (userId : ObjectId) (b : AddBody) (s : Store) : bool :=
  match PasswordModel.findOne (addPassword_filter userId b) s with
  | Some _ => true
  | None => false
  end.

Definition turnsOf (t : Turn) (schedule : list Turn) : nat :=
  List.length
    (filter (fun x => match t, x with
                      | RunFirst, RunFirst | RunSecond, RunSecond => true
                      | _, _ => false
                      end) schedule).

(** Two add requests, of any owners, pending on a collection. *)
Definition pendingPair (now1 now2 : N) (u1 u2 : ObjectId) (b1 b2 : AddBody)
  (s : Store) : InFlight :=
  {| store := s; first := Pending now1 u1 b1; second := Pending now2 u2 b2 |}.

(** The body of an edit that renames an entry. *)
Definition renameUpdates (name site : string) : PasswordModel.Updates :=
  {| PasswordModel.set__id := None;
     PasswordModel.set_user := None;
     PasswordModel.set_websiteName := Some name;
     PasswordModel.set_url := Some site;
     PasswordModel.set_username := None;
     PasswordModel.set_password := None;
     PasswordModel.set_passwordStrength := None;
     PasswordModel.set_websiteNameIv := None;
     PasswordModel.set_urlIv := None;
     PasswordModel.set_usernameIv := None;
     PasswordModel.set_passwordIv := None |}.

Definition notFoundSingle : Outcome :=
  Next {| message := "Password not found or access denied."; statusCode := 404 |}.

Definition notFoundEdit : Outcome :=
  Next {| message := "Password not found or not owned by the user";
          statusCode := 404 |}.

Definition notFoundDelete : Outcome :=
  Next {| message := "Password not found or not owned by the user.";
          statusCode := 404 |}.

Definition notFoundDeleteMany : Outcome :=
  Next {| message := "No passwords were deleted. They may not exist or not be owned by the user.";
          statusCode := 404 |}.

Definition deletedOne : Outcome :=
  Json 200 (BMessage true "Password has been successfully deleted.").

(** [req.query] with a given [page] parameter and nothing else. *)
Definition pageQuery (p : string) : Query :=
  {| query_page := Some p; query_limit := None; query_search := None |}.

(** [req.query] with a given [limit] parameter and nothing else. *)
Definition limitQuery (l : string) : Query :=
  {| query_page := None; query_limit := Some l; query_search := None |}.

(** How far a request has got: pending, checked, answered. *)
Definition taskRank (t : AddTask) : nat :=
  match t with
  | Pending _ _ _ => 0
  | Checked _ _ _ _ => 1
  | Finished _ => 2
  end.

Definition isSome {A : Type} (o : option A) : bool :=
  match o with Some _ => true | None => false end.

(** A request of [userId] with body [b], started on [s0], agrees with the
    current collection [cur]: the check gives on [cur] what it gave on [s0],
    and what the request has seen or answered is what it would have seen or
    answered alone on [s0]. *)
Definition taskAgrees (userId : ObjectId) (b : AddBody) (s0 : Store)
  (t : AddTask) (cur : Store) : Prop :=
  match t with
  | Pending _ u' b' =>
      u' = userId /\ b' = b /\ hasEntry userId b cur = hasEntry userId b s0
  | Checked _ u' b' existingPassword =>
      u' = userId /\ b' = b /\
      hasEntry userId b cur = hasEntry userId b s0 /\
      isSome existingPassword = hasEntry userId b s0
  | Finished out =>
      out = if hasEntry userId b s0 then conflictMessage else createdMessage
  end.

(** The answers with a 2xx status. *)
Definition isSuccess (out : Outcome) : bool :=
  match out with
  | Json status _ => (200 <=? status)%nat && (status <? 300)%nat
  | Next _ => false
  | Rejected _ => false
  end.

(** The document [e] as it would be under another owner and with other
    timestamps. *)
Definition withOwnerAndTimes (owner : ObjectId) (created updated : N)
  (e : PasswordDoc) : PasswordDoc :=
  {| _id := _id e;
     user := owner;
     websiteName := websiteName e;
     url := url e;
     username := username e;
     password := password e;
     passwordStrength := passwordStrength e;
     websiteNameIv := websiteNameIv e;
     urlIv := urlIv e;
     usernameIv := usernameIv e;
     passwordIv := passwordIv e;
     createdAt := created;
     updatedAt := updated |}.

(** [req.query] with a negative limit and a usable page. *)
Definition mixedQuery : Query :=
  {| query_page := Some "2"; query_limit := Some "-20"; query_search := None |}.

(** A no-break space (U+00A0), then 5. *)
Definition nbspFive : string :=
  String (ascii_of_nat 194) (String (ascii_of_nat 160) "5").

(** A line separator (U+2028), then 7. *)
Definition lineSeparatorSeven : string :=
  String (ascii_of_nat 226)
    (String (ascii_of_nat 128) (String (ascii_of_nat 168) "7")).

(** ** Sample data *)

Definition plainSchema : SchemaOptions :=
  {| unique_user_websiteName_url := false; immutable_user := false |}.

Definition alice : ObjectId := 1%N.
Definition bob : ObjectId := 2%N.

Definition githubBody : AddBody :=
  {| body_websiteName := "GitHub";
     body_websiteUrl := "https://github.com";
     body_username := "9f2c";
     body_password := "a71b";
     body_usernameIv := "0e0e";
     body_passwordIv := "5d5d";
     body_passwordStrength := JStr "strong" |}.

(** The same entry with the site name in lower case. *)
Definition githubLowerBody : AddBody :=
  {| body_websiteName := "github";
     body_websiteUrl := "https://github.com";
     body_username := "9f2c";
     body_password := "a71b";
     body_usernameIv := "0e0e";
     body_passwordIv := "5d5d";
     body_passwordStrength := JStr "strong" |}.

Definition mailBody : AddBody :=
  {| body_websiteName := "Mail";
     body_websiteUrl := "https://mail.example";
     body_username := "33aa";
     body_password := "44bb";
     body_usernameIv := "1111";
     body_passwordIv := "2222";
     body_passwordStrength := JNum 3 |}.

(** Alice stores two entries, then Bob stores one. *)
Definition aliceStore : Store :=
  fst (addPassword plainSchema 10%N alice githubBody emptyStore).

Definition sharedStore : Store :=
  fst (addPassword plainSchema 30%N bob githubBody
         (fst (addPassword plainSchema 20%N alice mailBody aliceStore))).

Definition bobDoc : PasswordDoc :=
  PasswordModel.mkDoc 2%N 30%N (addPassword_fields bob githubBody).

Definition negativeQuery : Query :=
  {| query_page := Some "-3"; query_limit := Some "-20"; query_search := None |}.

Definition secondPageQuery : Query :=
  {| query_page := Some "2"; query_limit := Some "ten"; query_search := None |}.

Definition noSuchSiteQuery : Query :=
  {| query_page := None; query_limit := None; query_search := Some "bank" |}.

Definition plainQuery : Query :=
  {| query_page := None; query_limit := None; query_search := None |}.

(** The edit body [{ "user": <bob's id> }]. *)
Definition transferUpdates : PasswordModel.Updates :=
  {| PasswordModel.set__id := None;
     PasswordModel.set_user := Some bob;
     PasswordModel.set_websiteName := None;
     PasswordModel.set_url := None;
     PasswordModel.set_username := None;
     PasswordModel.set_password := None;
     PasswordModel.set_passwordStrength := None;
     PasswordModel.set_websiteNameIv := None;
     PasswordModel.set_urlIv := None;
     PasswordModel.set_usernameIv := None;
     PasswordModel.set_passwordIv := None |}.

(** Alice sends the same add request twice; both are pending. *)
Definition raceStart : InFlight :=
  {| store := emptyStore;
     first := Pending 1%N alice githubBody;
     second := Pending 2%N alice githubBody |}.

(** Both [findOne] calls are answered before either handler goes on. *)
Definition racingSchedule : list Turn :=
  [RunFirst; RunSecond; RunFirst; RunSecond].

(** One request is served to its end before the other starts. *)
Definition serialSchedule : list Turn :=
  [RunFirst; RunFirst; RunSecond; RunSecond].

Definition duplicateKeyError : Outcome :=
  Next {| message := "E11000 duplicate key error collection: passwords";
          statusCode := 500 |}.

(** A schema that does not declare [user] immutable. *)
Definition mutableOwnerSchema (uniqueIndex : bool) : SchemaOptions :=
  {| unique_user_websiteName_url := uniqueIndex; immutable_user := false |}.

Definition indexSchema (uniqueIndex immutableUser : bool) : SchemaOptions :=
  {| unique_user_websiteName_url := uniqueIndex;
     immutable_user := immutableUser |}.

Definition smallPageQuery : Query :=
  {| query_page := Some "2"; query_limit := Some "1"; query_search := None |}.

Definition upperCaseSearchQuery : Query :=
  {| query_page := None; query_limit := None; query_search := Some "GIT" |}.

Definition aliceMailDoc : PasswordDoc :=
  PasswordModel.mkDoc 1%N 20%N (addPassword_fields alice mailBody).

Definition aliceGithubDoc : PasswordDoc :=
  PasswordModel.mkDoc 0%N 10%N (addPassword_fields alice githubBody).

(** * Properties *)

(** ** parseInt on sample inputs *)

Example parseInt_unset : JS.parseInt None = NaN.
Proof. reflexivity. Qed.

Example parseInt_word : JS.parseInt (Some "abc") = NaN.
Proof. reflexivity. Qed.

Example parseInt_empty : JS.parseInt (Some "") = NaN.
Proof. reflexivity. Qed.

Example parseInt_plain : JS.parseInt (Some "25") = Finite 25.
Proof. reflexivity. Qed.

Example parseInt_suffix : JS.parseInt (Some "  12px") = Finite 12.
Proof. reflexivity. Qed.

Example parseInt_hex : JS.parseInt (Some "0x1F") = Finite 31.
Proof. reflexivity. Qed.

Example parseInt_negative : JS.parseInt (Some "-3") = Finite (-3).
Proof. reflexivity. Qed.

Example parseInt_zero : JS.parseInt (Some "000") = Finite 0.
Proof. reflexivity. Qed.

Example parseInt_nbsp : JS.parseInt (Some nbspFive) = Finite 5.
Proof. reflexivity. Qed.

Example parseInt_line_separator :
  JS.parseInt (Some lineSeparatorSeven) = Finite 7.
Proof. reflexivity. Qed.

(** Above 2^53 a double holds every second integer, then every fourth, and
    so on: the numeral is rounded, ties to the even significand. *)
Example parseInt_rounds_tie_down :
  JS.parseInt (Some "9007199254740993") = Finite 9007199254740992.
Proof. vm_compute. reflexivity. Qed.

Example parseInt_rounds_tie_up :
  JS.parseInt (Some "9007199254740995") = Finite 9007199254740996.
Proof. vm_compute. reflexivity. Qed.

Example parseInt_rounds_nearest :
  JS.parseInt (Some "100000000000000000000000")
  = Finite 99999999999999991611392.
Proof. vm_compute. reflexivity. Qed.

Example toDouble_largest :
  JS.toDouble (2 ^ 1024 - 2 ^ 971) = Finite (2 ^ 1024 - 2 ^ 971) /\
  JS.toDouble (2 ^ 1024 - 2 ^ 971 + 2 ^ 970 - 1) = Finite (2 ^ 1024 - 2 ^ 971) /\
  JS.toDouble (2 ^ 1024 - 2 ^ 971 + 2 ^ 970) = Infinite false /\
  JS.toDouble (- 2 ^ 1024) = Infinite true.
Proof. vm_compute. repeat split. Qed.

(** The integers up to 2^53 are Numbers as they are. *)
Lemma toDouble_exact (z : Z) :
  (Z.abs z <= 2 ^ 53)%Z -> JS.toDouble z = Finite z.
Proof.
  intros Hz. unfold JS.toDouble.
  destruct (Z.eq_dec (Z.abs z) (2 ^ 53)) as [E|E].
  - destruct (Z.abs_spec z) as [[_ H]|[_ H]]; rewrite H in E.
    + subst z. vm_compute. reflexivity.
    + assert (z = (- 2 ^ 53)%Z) by lia. subst z. vm_compute. reflexivity.
  - assert (Hs : (Z.log2 (Z.abs z) - 52 <=? 0)%Z = true).
    { apply Z.leb_le.
      destruct (Z.eq_dec (Z.abs z) 0) as [H0|H0]; [rewrite H0; cbn; lia|].
      assert (Z.log2 (Z.abs z) < 53)%Z; [|lia].
      apply Z.log2_lt_pow2; lia. }
    now rewrite Hs.
Qed.

Lemma orDefault_nonzero (n : Number) (d : Z) :
  d <> 0%Z -> JS.orDefault n d <> Finite 0.
Proof.
  intros Hd. unfold JS.orDefault.
  destruct n as [|z|neg]; [congruence | | discriminate].
  destruct (Z.eqb_spec z 0); congruence.
Qed.

Lemma orDefault_passes (n : Number) (d : Z) :
  n <> NaN -> n <> Finite 0 -> JS.orDefault n d = n.
Proof.
  intros Hn Hz. unfold JS.orDefault.
  destruct n as [|z|neg]; [contradiction | | reflexivity].
  destruct (Z.eqb_spec z 0); [subst; contradiction | reflexivity].
Qed.

Lemma orDefault_not_negative (n : Number) (d : Z) :
  (1 <= d)%Z -> JS.isNegative n = false ->
  JS.atLeastOne (JS.orDefault n d) = true.
Proof.
  intros Hd Hn. unfold JS.orDefault, JS.atLeastOne.
  destruct n as [|z|neg]; cbn in *.
  - now apply Z.leb_le.
  - destruct (Z.eqb_spec z 0); apply Z.leb_le; [exact Hd|].
    apply Z.ltb_ge in Hn. lia.
  - now rewrite Hn.
Qed.

Lemma orDefault_negative (n : Number) (d : Z) :
  JS.isNegative n = true ->
  JS.orDefault n d = n /\ JS.atLeastOne (JS.orDefault n d) = false.
Proof.
  intros Hn. unfold JS.orDefault, JS.atLeastOne.
  destruct n as [|z|neg]; cbn in *; [discriminate | |].
  - apply Z.ltb_lt in Hn.
    destruct (Z.eqb_spec z 0); [lia|].
    split; [reflexivity|]. apply Z.leb_gt. lia.
  - subst neg. split; reflexivity.
Qed.

(** ** The page and limit handed to [paginate] *)

(** C7, as stated, fails: a negative [page] or [limit] is truthy, so the
    handler passes it on as it is; nothing in the handler clamps it. *)
Lemma getPassword_negative_page_limit_passed_on :
  getPassword_page negativeQuery = Finite (-3) /\
  getPassword_limit negativeQuery = Finite (-20) /\
  ~ (JS.atLeastOne (getPassword_page negativeQuery) = true /\
     JS.atLeastOne (getPassword_limit negativeQuery) = true).
Proof.
  split; [reflexivity|]. split; [reflexivity|].
  intros [H _]. discriminate H.
Qed.

(** C7 (amended): [page] and [limit] are parsed with [parseInt], each on
    its own.  A parameter that is unset, not numeric or equal to 0 takes the
    default, 1 for page and 10 for limit; any other Number [parseInt] gives
    is passed to [paginate] as it is, a negative one included.  So a
    parameter that does not parse to a negative Number is passed on as a
    Number of at least 1, and one that does is passed on negative: nothing
    in the handler clamps it. *)
Theorem getPassword_page_limit_defaults (q : Query) :
  ((query_page q = None -> getPassword_page q = Finite 1) /\
   (JS.parseInt (query_page q) = NaN -> getPassword_page q = Finite 1) /\
   (JS.parseInt (query_page q) = Finite 0 -> getPassword_page q = Finite 1) /\
   (JS.parseInt (query_page q) <> NaN ->
    JS.parseInt (query_page q) <> Finite 0 ->
    getPassword_page q = JS.parseInt (query_page q)) /\
   (parsesNegative (query_page q) = false ->
    JS.atLeastOne (getPassword_page q) = true) /\
   (parsesNegative (query_page q) = true ->
    getPassword_page q = JS.parseInt (query_page q) /\
    JS.atLeastOne (getPassword_page q) = false)) /\
  ((query_limit q = None -> getPassword_limit q = Finite 10) /\
   (JS.parseInt (query_limit q) = NaN -> getPassword_limit q = Finite 10) /\
   (JS.parseInt (query_limit q) = Finite 0 ->
    getPassword_limit q = Finite 10) /\
   (JS.parseInt (query_limit q) <> NaN ->
    JS.parseInt (query_limit q) <> Finite 0 ->
    getPassword_limit q = JS.parseInt (query_limit q)) /\
   (parsesNegative (query_limit q) = false ->
    JS.atLeastOne (getPassword_limit q) = true) /\
   (parsesNegative (query_limit q) = true ->
    getPassword_limit q = JS.parseInt (query_limit q) /\
    JS.atLeastOne (getPassword_limit q) = false)).
Proof.
  unfold getPassword_page, getPassword_limit, parsesNegative.
  split.
  - split; [intros ->; reflexivity|].
    split; [intros ->; reflexivity|].
    split; [intros ->; reflexivity|].
    split; [apply orDefault_passes|].
    split; [apply orDefault_not_negative; lia | apply orDefault_negative].
  - split; [intros ->; reflexivity|].
    split; [intros ->; reflexivity|].
    split; [intros ->; reflexivity|].
    split; [apply orDefault_passes|].
    split; [apply orDefault_not_negative; lia | apply orDefault_negative].
Qed.

(** The page is usable although the limit is negative, and the negative
    limit goes to [paginate] as it is. *)
Lemma getPassword_page_limit_defaults_witness :
  parsesNegative (query_page mixedQuery) = false /\
  parsesNegative (query_limit mixedQuery) = true /\
  getPassword_page mixedQuery = Finite 2 /\
  JS.atLeastOne (getPassword_page mixedQuery) = true /\
  getPassword_limit mixedQuery = Finite (-20) /\
  JS.atLeastOne (getPassword_limit mixedQuery) = false.
Proof.
  destruct (getPassword_page_limit_defaults mixedQuery)
    as [(_ & _ & _ & Hp & Hp1 & _) (_ & _ & _ & _ & _ & Hl)].
  split; [reflexivity|]. split; [reflexivity|].
  split; [exact (Hp ltac:(discriminate) ltac:(discriminate))|].
  split; [exact (Hp1 eq_refl)|].
  exact (Hl eq_refl).
Defined.

(** The helper, as the spec describes it, clamps what it is given. *)
Lemma paginate_clamps (s : Store) (f : Filter) (t : option string)
  (fs : list string) (pg lim : Number) :
  JS.atLeastOne (page (Pagination.pageInfo (Pagination.paginate s f t fs pg lim)))
  = true /\
  JS.atLeastOne (limit (Pagination.pageInfo (Pagination.paginate s f t fs pg lim)))
  = true.
Proof.
  cbn [Pagination.paginate Pagination.pageInfo page limit].
  split; [destruct pg as [|z|[|]] | destruct lim as [|z|[|]]];
    cbn; try reflexivity; apply Z.leb_le; lia.
Qed.

(** ** The entries of a list response *)

Lemma passwordForClient_keys (e : PasswordDoc) :
  map fst (passwordForClient e) = clientFields.
Proof. reflexivity. Qed.

Lemma stringified_keys_incl (o : JObject) :
  incl (map fst (stringified o)) (map fst o).
Proof.
  unfold stringified. induction o as [|[k v] o IH]; simpl.
  - apply incl_refl.
  - destruct (isUndefined v); simpl.
    + apply incl_tl. exact IH.
    + apply incl_cons; [left; reflexivity | apply incl_tl; exact IH].
Qed.

Lemma clientFields_hide :
  ~ In "user" clientFields /\ ~ In "createdAt" clientFields /\
  ~ In "updatedAt" clientFields /\ ~ In "_id" clientFields.
Proof.
  unfold clientFields.
  repeat split; intros H; simpl in H;
    repeat (destruct H as [H|H]; [discriminate H|]); exact H.
Qed.

Lemma Forall2_map_right {A B : Type} (P : A -> B -> Prop) (f : A -> B)
  (l : list A) :
  (forall a, P a (f a)) -> Forall2 P l (map f l).
Proof.
  intros H. induction l as [|a l IH]; simpl; constructor; auto.
Qed.

(** C10: every entry of a successful list response is built from one
    document of the page, in page order, and is exactly the object with the
    ten keys id, websiteName, url, username, password, passwordStrength,
    websiteNameIv, urlIv, usernameIv, passwordIv holding that document's
    values of these paths ([undefined] for an ..Iv path it does not have).
    The entry is the same whoever owns the document and whatever its
    createdAt and updatedAt are: neither the owner nor the timestamps go
    into it, as a key or as a value; nor are they keys of what
    [JSON.stringify] keeps of it. *)
Theorem getPassword_entries_projected (userId : ObjectId) (q : Query)
  (s : Store) (st : nat) (info : PageInfo) (data : list JObject)
  (Hok : getPassword userId q s = Json st (BList info data)) :
  Forall2
    (fun e o =>
       o = [ ("id", JOid (_id e));
             ("websiteName", JStr (websiteName e));
             ("url", JStr (url e));
             ("username",
              JObj [("encUsername", JStr (encUsername (username e)));
                    ("iv", JStr (username_iv (username e)))]);
             ("password",
              JObj [("encPassword", JStr (encPassword (password e)));
                    ("iv", JStr (password_iv (password e)))]);
             ("passwordStrength", passwordStrength e);
             ("websiteNameIv",
              match websiteNameIv e with Some v => JStr v | None => JUndefined end);
             ("urlIv",
              match urlIv e with Some v => JStr v | None => JUndefined end);
             ("usernameIv",
              match usernameIv e with Some v => JStr v | None => JUndefined end);
             ("passwordIv",
              match passwordIv e with Some v => JStr v | None => JUndefined end) ]
       /\
       forall owner created updated,
         passwordForClient (withOwnerAndTimes owner created updated e) = o)
    (Pagination.results (getPassword_pageOf userId q s)) data /\
  Forall (fun o =>
            map fst o = clientFields /\
            ~ In "user" (map fst o) /\
            ~ In "createdAt" (map fst o) /\
            ~ In "updatedAt" (map fst o) /\
            incl (map fst (stringified o)) clientFields)
         data.
Proof.
  unfold getPassword, getPassword_respond in Hok.
  destruct (List.length (Pagination.results (getPassword_pageOf userId q s)) =? 0)%nat;
    [discriminate Hok|].
  injection Hok as _ _ Hdata. subst data.
  split.
  - apply Forall2_map_right. intros e. split; [reflexivity|].
    intros owner created updated. reflexivity.
  - apply Forall_forall. intros o Ho.
    apply in_map_iff in Ho. destruct Ho as (e & <- & _).
    rewrite passwordForClient_keys.
    destruct clientFields_hide as (Hu & Hc & Hup & _).
    repeat split; try assumption.
    rewrite <- (passwordForClient_keys e). apply stringified_keys_incl.
Qed.

(** Alice's two entries, as they are sent: they would be the same under
    any owner and any timestamps. *)
Lemma getPassword_entries_projected_witness :
  exists info data,
    getPassword alice plainQuery sharedStore = Json 201 (BList info data) /\
    List.length data = 2%nat /\
    Forall2
      (fun e o =>
         forall owner created updated,
           passwordForClient (withOwnerAndTimes owner created updated e) = o)
      [aliceGithubDoc; aliceMailDoc] data /\
    Forall (fun o => map fst o = clientFields /\ ~ In "user" (map fst o)) data.
Proof.
  eexists. eexists.
  split; [reflexivity|].
  split; [reflexivity|].
  destruct (getPassword_entries_projected alice plainQuery sharedStore 201 _ _
              eq_refl) as [H2 H].
  split.
  - eapply Forall2_impl; [|exact H2]. intros e o [_ Hn]. exact Hn.
  - eapply Forall_impl; [|exact H].
    intros o (Hk & Hu & _). split; assumption.
Defined.

Example getPassword_sample_entry :
  passwordForClient aliceMailDoc
  = [ ("id", JOid 1%N);
      ("websiteName", JStr "Mail");
      ("url", JStr "https://mail.example");
      ("username", JObj [("encUsername", JStr "33aa"); ("iv", JStr "1111")]);
      ("password", JObj [("encPassword", JStr "44bb"); ("iv", JStr "2222")]);
      ("passwordStrength", JNum 3);
      ("websiteNameIv", JUndefined);
      ("urlIv", JUndefined);
      ("usernameIv", JUndefined);
      ("passwordIv", JUndefined) ].
Proof. reflexivity. Qed.

(** ** Queries and the documents they select *)

Section StoreFacts.

Variable f : Filter.

Lemma matches_user (A : ObjectId) (d : PasswordDoc) :
  In (c_user A) f -> matches f d = true -> user d = A.
Proof.
  unfold matches. rewrite forallb_forall. intros Hc Hall.
  apply N.eqb_eq. exact (Hall _ Hc).
Qed.

Lemma not_owned_no_match (A : ObjectId) (d : PasswordDoc) :
  In (c_user A) f -> user d <> A -> matches f d = false.
Proof.
  intros Hc Hne. destruct (matches f d) eqn:E; [|reflexivity].
  exfalso. apply Hne. now apply matches_user.
Qed.

Lemma findOne_found (s : Store) (d : PasswordDoc) :
  PasswordModel.findOne f s = Some d -> In d (docs s) /\ matches f d = true.
Proof. unfold PasswordModel.findOne. apply find_some. Qed.

Lemma removeFirst_keeps (l : list PasswordDoc) (d : PasswordDoc) :
  In d l -> matches f d = false -> In d (PasswordModel.removeFirst f l).
Proof.
  intros Hin Hno. induction l as [|x l IH]; simpl in *; [contradiction|].
  destruct (matches f x) eqn:E.
  - destruct Hin as [->|Hin]; [congruence | exact Hin].
  - destruct Hin as [->|Hin]; [left; reflexivity | right; auto].
Qed.

Lemma updateFirst_keeps (g : PasswordDoc -> PasswordDoc)
  (l : list PasswordDoc) (d : PasswordDoc) :
  In d l -> matches f d = false -> In d (PasswordModel.updateFirst f g l).
Proof.
  intros Hin Hno. induction l as [|x l IH]; simpl in *; [contradiction|].
  destruct (matches f x) eqn:E.
  - destruct Hin as [->|Hin]; [congruence | right; exact Hin].
  - destruct Hin as [->|Hin]; [left; reflexivity | right; auto].
Qed.

Lemma updateFirst_length (g : PasswordDoc -> PasswordDoc)
  (l : list PasswordDoc) :
  List.length (PasswordModel.updateFirst f g l) = List.length l.
Proof.
  induction l as [|x l IH]; simpl; [reflexivity|].
  destruct (matches f x); simpl; congruence.
Qed.

Lemma deleteMany_keeps (s : Store) (d : PasswordDoc) :
  In d (docs s) -> matches f d = false ->
  In d (docs (fst (PasswordModel.deleteMany f s))).
Proof.
  intros Hin Hno. simpl. apply filter_In. split; [exact Hin|].
  now rewrite Hno.
Qed.

Lemma deleteOne_keeps (s : Store) (d : PasswordDoc) :
  In d (docs s) -> matches f d = false ->
  In d (docs (fst (PasswordModel.deleteOne f s))).
Proof. intros Hin Hno. simpl. now apply removeFirst_keeps. Qed.

End StoreFacts.

Lemma in_firstn {A : Type} (n : nat) (l : list A) (x : A) :
  In x (firstn n l) -> In x l.
Proof.
  intros H. rewrite <- (firstn_skipn n l). apply in_or_app. now left.
Qed.

Lemma in_skipn {A : Type} (n : nat) (l : list A) (x : A) :
  In x (skipn n l) -> In x l.
Proof.
  intros H. rewrite <- (firstn_skipn n l). apply in_or_app. now right.
Qed.

Lemma pageOf_incl (pg lim : Number) (all : list PasswordDoc)
  (d : PasswordDoc) :
  In d (Pagination.pageOf pg lim all) -> In d all.
Proof.
  unfold Pagination.pageOf.
  destruct pg as [|p|np]; try contradiction.
  destruct lim as [|l|nl]; try contradiction.
  - intros H. now apply in_firstn, in_skipn in H.
  - destruct (p =? 1)%Z; [exact (fun H => H) | contradiction].
Qed.

Lemma pageOf_nil (pg lim : Number) : Pagination.pageOf pg lim [] = [].
Proof.
  unfold Pagination.pageOf.
  destruct pg as [|p|np]; try reflexivity.
  destruct lim as [|l|nl]; try reflexivity.
  - now rewrite skipn_nil, firstn_nil.
  - destruct (p =? 1)%Z; reflexivity.
Qed.

(** Every document of a page satisfies the base filter and the search, and
    is a document of the collection. *)
Lemma paginate_results_selected (s : Store) (bf : Filter) (t : option string)
  (fs : list string) (pg lim : Number) (d : PasswordDoc) :
  In d (Pagination.results (Pagination.paginate s bf t fs pg lim)) ->
  In d (docs s) /\ matches bf d = true /\ Pagination.searchOk t fs d = true.
Proof.
  cbn [Pagination.paginate Pagination.results]. intros H.
  apply pageOf_incl in H.
  unfold Pagination.selected in H. apply filter_In in H.
  destruct H as [Hin Hb]. apply andb_true_iff in Hb. tauto.
Qed.

Lemma editPassword_cases (opts : SchemaOptions) (now : N) (A id : ObjectId)
  (upd : PasswordModel.Updates) (s : Store) :
  (exists m, editPassword opts now A id upd s = (s, Rejected m)) \/
  (PasswordModel.findOne (editPassword_filter A id) s = None /\
   exists e, editPassword opts now A id upd s = (s, Next e)) \/
  (exists d, PasswordModel.findOne (editPassword_filter A id) s = Some d /\
     editPassword opts now A id upd s =
       ({| docs := PasswordModel.updateFirst (editPassword_filter A id)
                     (PasswordModel.applySet opts now upd) (docs s);
           nextId := nextId s |},
        Json 200 (BUpdated "Password updated successfully"
                           (PasswordModel.applySet opts now upd d)))).
Proof.
  unfold editPassword, PasswordModel.findOneAndUpdate.
  destruct (PasswordModel.findOne (editPassword_filter A id) s) as [d|] eqn:E.
  - destruct (PasswordModel.changes_id upd d); [left; eexists; reflexivity|].
    destruct (PasswordModel.collides opts (editPassword_filter A id) d
                (PasswordModel.applySet opts now upd d) s).
    + left. eexists. reflexivity.
    + right. right. exists d. split; reflexivity.
  - right. left. split; [reflexivity|]. eexists. reflexivity.
Qed.

(** ** Ownership *)

(** C1: an operation run for owner A never returns, changes or removes a
    document that belongs to another owner B, whatever id it is given: each
    query carries the condition [user: A]; what List and GetOne return are
    documents of A; Edit returns the updated form of a document that was
    A's when it was called; and B's document is still in the collection,
    unchanged, after Edit, DeleteOne and DeleteMany. *)
Theorem operations_scoped_to_owner (A B : ObjectId) (s : Store)
  (r : PasswordDoc)
  (HAB : A <> B) (Hin : In r (docs s)) (Hown : user r = B) :
  In (c_user A) (getPassword_filter A) /\
  (forall id, In (c_user A) (getSinglePassword_filter A id)) /\
  (forall id, In (c_user A) (editPassword_filter A id)) /\
  (forall id, In (c_user A) (deleteSinglePassword_filter A id)) /\
  (forall ids, In (c_user A) (deleteMultiplePasswords_filter A ids)) /\
  (forall q,
      ~ In r (Pagination.results (getPassword_pageOf A q s)) /\
      Forall (fun p => In p (docs s) /\ user p = A)
             (Pagination.results (getPassword_pageOf A q s))) /\
  (forall id st p,
      getSinglePassword A id s = Json st (BData p) ->
      p <> r /\ user p = A /\ In p (docs s)) /\
  (forall opts now id upd,
      In r (docs (fst (editPassword opts now A id upd s))) /\
      forall st m u,
        snd (editPassword opts now A id upd s) = Json st (BUpdated m u) ->
        exists d, In d (docs s) /\ user d = A /\ d <> r /\
                  u = PasswordModel.applySet opts now upd d) /\
  (forall pid, In r (docs (fst (deleteSinglePassword A pid s)))) /\
  (forall ids, In r (docs (fst (deleteMultiplePasswords A ids s)))).
Proof.
  assert (Hr : user r <> A) by congruence.
  split; [left; reflexivity|].
  split; [intros id; right; left; reflexivity|].
  split; [intros id; right; left; reflexivity|].
  split; [intros id; right; left; reflexivity|].
  split; [intros ids; right; left; reflexivity|].
  split.
  { intros q.
    assert (Hall : Forall (fun p => In p (docs s) /\ user p = A)
                     (Pagination.results (getPassword_pageOf A q s))).
    { apply Forall_forall. intros p Hp.
      apply paginate_results_selected in Hp. destruct Hp as (Hp & Hm & _).
      split; [exact Hp|].
      apply (matches_user (getPassword_filter A)); [left; reflexivity | exact Hm]. }
    split; [|exact Hall].
    intros Hc. rewrite Forall_forall in Hall.
    destruct (Hall _ Hc) as [_ Hu]. contradiction. }
  split.
  { intros id st p H. unfold getSinglePassword in H.
    destruct (PasswordModel.findOne (getSinglePassword_filter A id) s) as [d|] eqn:E;
      [|discriminate H].
    injection H as _ Hp. subst p.
    apply findOne_found in E. destruct E as [Hd Hm].
    assert (Hu : user d = A)
      by (apply (matches_user (getSinglePassword_filter A id));
          [right; left; reflexivity | exact Hm]).
    repeat split; try assumption. intros ->. contradiction. }
  split.
  { intros opts now id upd.
    destruct (editPassword_cases opts now A id upd s)
      as [[m E] | [[_ [e E]] | [d [Hf E]]]]; rewrite E; simpl.
    - split; [exact Hin | intros st m' u H; discriminate H].
    - split; [exact Hin | intros st m' u H; discriminate H].
    - split.
      + apply updateFirst_keeps; [exact Hin|].
        apply (not_owned_no_match _ A); [right; left; reflexivity | exact Hr].
      + intros st m' u H. injection H as _ _ <-.
        apply findOne_found in Hf. destruct Hf as [Hd Hm].
        assert (Hu : user d = A)
          by (apply (matches_user (editPassword_filter A id));
              [right; left; reflexivity | exact Hm]).
        exists d. repeat split; try assumption. intros ->. contradiction. }
  split.
  { intros [pid|]; [|exact Hin].
    unfold deleteSinglePassword.
    assert (K : In r (docs (fst (PasswordModel.deleteOne
                                   (deleteSinglePassword_filter A pid) s)))).
    { apply deleteOne_keeps; [exact Hin|].
      apply (not_owned_no_match _ A); [right; left; reflexivity | exact Hr]. }
    destruct (PasswordModel.deleteOne (deleteSinglePassword_filter A pid) s)
      as [s' n].
    destruct (n =? 0)%nat; exact K. }
  { intros [[|i ids]|]; try exact Hin.
    unfold deleteMultiplePasswords.
    assert (K : In r (docs (fst (PasswordModel.deleteMany
                                   (deleteMultiplePasswords_filter A (i :: ids)) s)))).
    { apply deleteMany_keeps; [exact Hin|].
      apply (not_owned_no_match _ A); [right; left; reflexivity | exact Hr]. }
    destruct (PasswordModel.deleteMany
                (deleteMultiplePasswords_filter A (i :: ids)) s) as [s' n].
    destruct (n =? 0)%nat; exact K. }
Qed.

Lemma operations_scoped_to_owner_witness :
  alice <> bob /\ In bobDoc (docs sharedStore) /\ user bobDoc = bob /\
  In bobDoc (docs (fst (deleteMultiplePasswords alice
                          (Some [0%N; 1%N; 2%N]) sharedStore))) /\
  In bobDoc (docs (fst (editPassword plainSchema 40%N alice (_id bobDoc)
                          PasswordModel.noUpdates sharedStore))) /\
  ~ In bobDoc (Pagination.results
                 (getPassword_pageOf alice plainQuery sharedStore)).
Proof.
  assert (Hne : alice <> bob) by discriminate.
  assert (Hin : In bobDoc (docs sharedStore))
    by (right; right; left; reflexivity).
  destruct (operations_scoped_to_owner alice bob sharedStore bobDoc
              Hne Hin eq_refl)
    as (_ & _ & _ & _ & _ & Hlist & _ & Hedit & _ & Hmany).
  split; [exact Hne|]. split; [exact Hin|]. split; [reflexivity|].
  split; [apply Hmany|].
  split; [apply Hedit|].
  apply Hlist.
Defined.

(** Supplying the id of Bob's document does not help Alice: every
    single-document path answers 404 and the collection stays as it was. *)
Example alice_cannot_reach_bobs_document :
  getSinglePassword alice (_id bobDoc) sharedStore =
    Next {| message := "Password not found or access denied.";
            statusCode := 404 |} /\
  fst (deleteSinglePassword alice (Some (_id bobDoc)) sharedStore) = sharedStore /\
  fst (deleteMultiplePasswords alice (Some [_id bobDoc]) sharedStore) = sharedStore /\
  fst (editPassword plainSchema 40%N alice (_id bobDoc) PasswordModel.noUpdates
         sharedStore) = sharedStore.
Proof. repeat split. Qed.

(** ** Adding an entry *)

Lemma same_entry_matches (u : ObjectId) (b : AddBody) (d : PasswordDoc) :
  PasswordModel.same_entry (addPassword_fields u b) d =
  matches (addPassword_filter u b) d.
Proof.
  unfold PasswordModel.same_entry, matches. simpl.
  now rewrite andb_true_r, andb_assoc.
Qed.

Lemma find_none_existsb {A : Type} (p : A -> bool) (l : list A) :
  find p l = None -> existsb p l = false.
Proof.
  induction l as [|x l IH]; simpl; [reflexivity|].
  destruct (p x); [discriminate | exact IH].
Qed.

Lemma find_app_last {A : Type} (p : A -> bool) (l : list A) (x : A) :
  Forall (fun y => p y = false) l ->
  find p (l ++ [x]) = if p x then Some x else None.
Proof.
  induction 1 as [|y l Hy _ IH]; simpl; [reflexivity|].
  now rewrite Hy.
Qed.

Lemma find_none_forall {A : Type} (p : A -> bool) (l : list A) :
  find p l = None -> Forall (fun y => p y = false) l.
Proof.
  intros H. apply Forall_forall. intros y Hy. exact (find_none p l H y Hy).
Qed.

Lemma filter_nil_find {A : Type} (p : A -> bool) (l : list A) :
  filter p l = [] -> find p l = None.
Proof.
  induction l as [|x l IH]; simpl; [reflexivity|].
  destruct (p x); [discriminate | exact IH].
Qed.

(** With no matching entry, [addPassword] appends one document and answers
    201, whether or not the unique index is declared. *)
Lemma addPassword_created (opts : SchemaOptions) (now : N) (u : ObjectId)
  (b : AddBody) (s : Store) :
  PasswordModel.findOne (addPassword_filter u b) s = None ->
  addPassword opts now u b s =
    ({| docs := docs s ++
                [PasswordModel.mkDoc (nextId s) now (addPassword_fields u b)];
        nextId := N.succ (nextId s) |},
     createdMessage).
Proof.
  intros Hnone. unfold addPassword, addPassword_continue. rewrite Hnone.
  unfold PasswordModel.create.
  assert (E : existsb (PasswordModel.same_entry (addPassword_fields u b)) (docs s)
              = false).
  { unfold PasswordModel.findOne in Hnone.
    induction (docs s) as [|x l IH]; cbn [find existsb] in *; [reflexivity|].
    rewrite same_entry_matches.
    destruct (matches (addPassword_filter u b) x); [discriminate Hnone|].
    apply IH. exact Hnone. }
  rewrite E, andb_false_r. reflexivity.
Qed.

(** A 201 answer means the check found nothing. *)
Lemma addPassword_created_inv (opts : SchemaOptions) (now : N) (u : ObjectId)
  (b : AddBody) (s : Store) :
  snd (addPassword opts now u b s) = createdMessage ->
  PasswordModel.findOne (addPassword_filter u b) s = None.
Proof.
  unfold addPassword, addPassword_continue.
  destruct (PasswordModel.findOne (addPassword_filter u b) s);
    [discriminate | reflexivity].
Qed.

(** C2: when the collection holds a document with the same owner,
    websiteName and url, [addPassword] answers with the 400 JSON body
    "Password already exists in the vault." (a response, not an error passed
    to [next]) and the collection is exactly what it was. *)
Theorem addPassword_duplicate_conflict (opts : SchemaOptions) (now : N)
  (u : ObjectId) (b : AddBody) (s : Store) (d : PasswordDoc)
  (Hin : In d (docs s)) (Hu : user d = u)
  (Hname : websiteName d = body_websiteName b)
  (Hurl : url d = body_websiteUrl b) :
  addPassword opts now u b s =
    (s, Json 400 (BMessage false "Password already exists in the vault.")).
Proof.
  unfold addPassword, addPassword_continue.
  destruct (PasswordModel.findOne (addPassword_filter u b) s) as [e|] eqn:E;
    [reflexivity|].
  exfalso. unfold PasswordModel.findOne in E.
  pose proof (find_none _ _ E d Hin) as Hno.
  unfold matches in Hno. simpl in Hno.
  rewrite Hu, Hname, Hurl, N.eqb_refl, !String.eqb_refl in Hno.
  discriminate Hno.
Qed.

Lemma addPassword_duplicate_conflict_witness :
  addPassword plainSchema 50%N bob githubBody sharedStore =
    (sharedStore, conflictMessage) /\
  List.length (docs (fst (addPassword plainSchema 50%N bob githubBody sharedStore)))
  = List.length (docs sharedStore).
Proof.
  assert (Hin : In bobDoc (docs sharedStore))
    by (right; right; left; reflexivity).
  pose proof (addPassword_duplicate_conflict plainSchema 50%N bob githubBody
                sharedStore bobDoc Hin eq_refl eq_refl eq_refl) as H.
  split; [exact H|]. rewrite H. reflexivity.
Defined.

(** ** Reading back what was stored *)

Lemma wf_fresh_id (s : Store) (u : ObjectId) :
  wf s ->
  Forall (fun d => matches (getSinglePassword_filter u (nextId s)) d = false)
         (docs s).
Proof.
  unfold wf. intros H. eapply Forall_impl; [|exact H].
  intros d Hd. unfold matches. simpl.
  replace (_id d =? nextId s)%N with false; [reflexivity|].
  symmetry. apply N.eqb_neq. unfold ObjectId in *. lia.
Qed.

(** C4: when [addPassword] has created a document, [getSinglePassword] by
    the same owner on that document's id returns it, and its username and
    password pairs are the ciphertexts and ivs of the request body, as they
    were given. *)
Theorem addPassword_then_getSinglePassword (opts : SchemaOptions) (now : N)
  (u : ObjectId) (b : AddBody) (s : Store)
  (Hwf : wf s)
  (Hadd : snd (addPassword opts now u b s) = createdMessage) :
  exists d,
    docs (fst (addPassword opts now u b s)) = (docs s ++ [d])%list /\
    getSinglePassword u (_id d) (fst (addPassword opts now u b s)) =
      Json 200 (BData d) /\
    username d = {| encUsername := body_username b;
                    username_iv := body_usernameIv b |} /\
    password d = {| encPassword := body_password b;
                    password_iv := body_passwordIv b |} /\
    passwordStrength d = body_passwordStrength b.
Proof.
  apply addPassword_created_inv in Hadd.
  rewrite (addPassword_created opts now u b s Hadd).
  eexists. split; [reflexivity|].
  split; [|repeat split].
  unfold getSinglePassword, PasswordModel.findOne. cbn [fst docs].
  cbn [PasswordModel.mkDoc _id].
  rewrite find_app_last by (apply wf_fresh_id; exact Hwf).
  unfold matches. simpl. now rewrite !N.eqb_refl.
Qed.

Lemma addPassword_then_getSinglePassword_witness :
  exists d,
    getSinglePassword alice (_id d)
      (fst (addPassword plainSchema 20%N alice mailBody aliceStore)) =
      Json 200 (BData d) /\
    username d = {| encUsername := "33aa"; username_iv := "1111" |} /\
    password d = {| encPassword := "44bb"; password_iv := "2222" |}.
Proof.
  assert (Hwf : wf aliceStore).
  { repeat constructor. }
  destruct (addPassword_then_getSinglePassword plainSchema 20%N alice mailBody
              aliceStore Hwf eq_refl) as (d & _ & Hget & Hu & Hp & _).
  exists d. repeat split; assumption.
Defined.

(** Well-formedness is kept by every handler, so it holds of every
    collection the handlers can build from the empty one. *)
Lemma wf_empty : wf emptyStore.
Proof. constructor. Qed.

Lemma wf_addPassword (opts : SchemaOptions) (now : N) (u : ObjectId)
  (b : AddBody) (s : Store) :
  wf s -> wf (fst (addPassword opts now u b s)).
Proof.
  intros H. unfold addPassword, addPassword_continue.
  destruct (PasswordModel.findOne (addPassword_filter u b) s); [exact H|].
  unfold PasswordModel.create.
  destruct (unique_user_websiteName_url opts
            && existsb (PasswordModel.same_entry (addPassword_fields u b)) (docs s));
    [exact H|].
  unfold wf, PasswordModel.save in *. cbn [fst docs nextId].
  apply Forall_app. split.
  - eapply Forall_impl; [|exact H]. cbv beta. intros d Hd.
    unfold ObjectId in *. lia.
  - constructor; [|constructor]. cbn [PasswordModel.mkDoc _id].
    unfold ObjectId in *. lia.
Qed.

Lemma updateFirst_ids (f : Filter) (g : PasswordDoc -> PasswordDoc)
  (l : list PasswordDoc) :
  (forall d, _id (g d) = _id d) ->
  map _id (PasswordModel.updateFirst f g l) = map _id l.
Proof.
  intros Hg. induction l as [|x l IH]; simpl; [reflexivity|].
  destruct (matches f x); simpl; [now rewrite Hg | now rewrite IH].
Qed.

Lemma wf_ids (s s' : Store) :
  nextId s' = nextId s -> incl (map _id (docs s')) (map _id (docs s)) ->
  wf s -> wf s'.
Proof.
  unfold wf. intros Hn Hincl H. rewrite Forall_forall in *.
  intros d Hd. rewrite Hn.
  assert (Hi : In (_id d) (map _id (docs s))) by (apply Hincl, in_map, Hd).
  apply in_map_iff in Hi. destruct Hi as (e & <- & He). now apply H.
Qed.

Lemma wf_editPassword (opts : SchemaOptions) (now : N) (u id : ObjectId)
  (upd : PasswordModel.Updates) (s : Store) :
  wf s -> wf (fst (editPassword opts now u id upd s)).
Proof.
  intros H.
  destruct (editPassword_cases opts now u id upd s)
    as [[m E] | [[_ [e E]] | [d [_ E]]]]; rewrite E; cbn [fst];
    try exact H.
  apply (wf_ids s); [reflexivity | | exact H].
  cbn [docs]. rewrite updateFirst_ids by reflexivity. apply incl_refl.
Qed.

Lemma removeFirst_incl (f : Filter) (l : list PasswordDoc) :
  incl (PasswordModel.removeFirst f l) l.
Proof.
  induction l as [|x l IH]; simpl; [apply incl_refl|].
  destruct (matches f x).
  - apply incl_tl, incl_refl.
  - apply incl_cons; [left; reflexivity | apply incl_tl; exact IH].
Qed.

Lemma wf_deleteSinglePassword (u : ObjectId) (pid : option ObjectId)
  (s : Store) :
  wf s -> wf (fst (deleteSinglePassword u pid s)).
Proof.
  intros H. destruct pid as [pid|]; [|exact H].
  unfold deleteSinglePassword, PasswordModel.deleteOne.
  match goal with |- context [if ?c then _ else _] => destruct c end;
    cbn [fst]; (apply (wf_ids s); [reflexivity | | exact H]);
    cbn [docs PasswordModel.withDocs]; apply incl_map, removeFirst_incl.
Qed.

Lemma wf_deleteMultiplePasswords (u : ObjectId)
  (ids : option (list ObjectId)) (s : Store) :
  wf s -> wf (fst (deleteMultiplePasswords u ids s)).
Proof.
  intros H. destruct ids as [[|i ids]|]; try exact H.
  unfold deleteMultiplePasswords, PasswordModel.deleteMany.
  match goal with |- context [if ?c then _ else _] => destruct c end;
    cbn [fst]; (apply (wf_ids s); [reflexivity | | exact H]);
    cbn [docs PasswordModel.withDocs]; apply incl_map, incl_filter.
Qed.

(** ** Duplicate detection is exact comparison *)

(** C9: the check of [addPassword] compares websiteName and url as they are.
    Two requests of one owner whose (websiteName, url) differ in any way,
    letter case included, on a collection holding neither entry, are both
    answered 201 and leave two new documents. *)
Theorem addPassword_exact_comparison (opts : SchemaOptions) (now1 now2 : N)
  (u : ObjectId) (b1 b2 : AddBody) (s : Store)
  (Hdiff : body_websiteName b1 <> body_websiteName b2 \/
           body_websiteUrl b1 <> body_websiteUrl b2)
  (H1 : entriesFor u (body_websiteName b1) (body_websiteUrl b1) s = [])
  (H2 : entriesFor u (body_websiteName b2) (body_websiteUrl b2) s = []) :
  snd (addPassword opts now1 u b1 s) = createdMessage /\
  snd (addPassword opts now2 u b2 (fst (addPassword opts now1 u b1 s)))
  = createdMessage /\
  docs (fst (addPassword opts now2 u b2 (fst (addPassword opts now1 u b1 s))))
  = (docs s ++
     [PasswordModel.mkDoc (nextId s) now1 (addPassword_fields u b1);
      PasswordModel.mkDoc (N.succ (nextId s)) now2 (addPassword_fields u b2)])%list.
Proof.
  apply filter_nil_find in H1. apply filter_nil_find in H2.
  rewrite (addPassword_created opts now1 u b1 s H1). cbn [fst snd].
  set (s1 := {| docs := _; nextId := _ |}).
  assert (Hnone : PasswordModel.findOne (addPassword_filter u b2) s1 = None).
  { unfold PasswordModel.findOne, s1. cbn [docs].
    rewrite find_app_last by (apply find_none_forall; exact H2).
    unfold matches. simpl. rewrite N.eqb_refl, andb_true_r. simpl.
    destruct Hdiff as [Hn|Hu].
    - apply String.eqb_neq in Hn. now rewrite Hn.
    - apply String.eqb_neq in Hu. rewrite Hu. now rewrite andb_false_r. }
  rewrite (addPassword_created opts now2 u b2 s1 Hnone). cbn [fst snd].
  split; [reflexivity|]. split; [reflexivity|].
  unfold s1. cbn [docs nextId]. now rewrite <- app_assoc.
Qed.

Lemma addPassword_exact_comparison_witness :
  (body_websiteName githubBody <> body_websiteName githubLowerBody \/
   body_websiteUrl githubBody <> body_websiteUrl githubLowerBody) /\
  snd (addPassword plainSchema 2%N alice githubLowerBody
         (fst (addPassword plainSchema 1%N alice githubBody emptyStore)))
  = createdMessage /\
  List.length
    (docs (fst (addPassword plainSchema 2%N alice githubLowerBody
                  (fst (addPassword plainSchema 1%N alice githubBody emptyStore)))))
  = 2%nat.
Proof.
  assert (Hd : body_websiteName githubBody <> body_websiteName githubLowerBody \/
               body_websiteUrl githubBody <> body_websiteUrl githubLowerBody)
    by (left; discriminate).
  destruct (addPassword_exact_comparison plainSchema 1%N 2%N alice githubBody
              githubLowerBody emptyStore Hd eq_refl eq_refl) as (_ & H2 & H3).
  split; [exact Hd|]. split; [exact H2|]. rewrite H3. reflexivity.
Defined.

(** ** Deleting several entries *)


Lemma filter_same {A : Type} (p q : A -> bool) (l : list A) :
  (forall x, p x = q x) -> filter p l = filter q l.
Proof.
  intros H. induction l as [|x l IH]; simpl; [reflexivity|].
  now rewrite H, IH.
Qed.



(** ** An empty page *)

Lemma filter_none {A : Type} (p : A -> bool) (l : list A) :
  (forall x, In x l -> p x = false) -> filter p l = [].
Proof.
  induction l as [|x l IH]; intros H; simpl; [reflexivity|].
  rewrite (H x (or_introl eq_refl)). apply IH.
  intros y Hy. apply H. now right.
Qed.

Lemma getPassword_respond_empty (p : Pagination.Page) :
  Pagination.results p = [] -> getPassword_respond p = notFoundList.
Proof. unfold getPassword_respond. intros ->. reflexivity. Qed.

(** A 201 list answer always carries at least one entry. *)
Lemma getPassword_respond_nonempty (p : Pagination.Page) (st : nat)
  (info : PageInfo) (data : list JObject) :
  getPassword_respond p = Json st (BList info data) -> data <> [].
Proof.
  unfold getPassword_respond.
  destruct (Pagination.results p) as [|d l]; simpl; [discriminate|].
  intros H. injection H as _ _ <-. discriminate.
Qed.

(** C6: when the page [paginate] returns is empty, and in particular when
    the search term occurs in the websiteName of none of the owner's
    documents, [getPassword] passes the 404 error "No passwords found" to
    [next] and sends no page. *)
Theorem getPassword_empty_not_found (A : ObjectId) (q : Query) (s : Store)
  (Hempty :
     Pagination.results (getPassword_pageOf A q s) = [] \/
     exists t, query_search q = Some t /\
       forall d, In d (docs s) -> user d = A ->
         JS.includes (JS.toLowerCase t) (JS.toLowerCase (websiteName d)) = false) :
  getPassword A q s = Next {| message := "No passwords found"; statusCode := 404 |}.
Proof.
  apply getPassword_respond_empty.
  destruct Hempty as [H | (t & Ht & Hno)]; [exact H|].
  unfold getPassword_pageOf, Pagination.paginate. cbn [Pagination.results].
  unfold Pagination.selected. rewrite Ht.
  rewrite filter_none; [apply pageOf_nil|].
  intros d Hd. unfold matches, getPassword_filter. simpl.
  destruct (N.eqb_spec (user d) A) as [Hu|Hu]; [|reflexivity].
  rewrite (Hno d Hd Hu). reflexivity.
Qed.

Lemma getPassword_empty_not_found_witness :
  getPassword alice noSuchSiteQuery sharedStore = notFoundList.
Proof.
  apply (getPassword_empty_not_found alice noSuchSiteQuery sharedStore).
  right. exists "bank". split; [reflexivity|].
  intros d [<-|[<-|[<-|[]]]] Hu; try reflexivity.
Defined.

(** ** The owner of a document *)

Lemma applySet_id (opts : SchemaOptions) (now : N)
  (upd : PasswordModel.Updates) (d : PasswordDoc) :
  _id (PasswordModel.applySet opts now upd d) = _id d.
Proof. reflexivity. Qed.

Lemma applySet_owner_kept (opts : SchemaOptions) (now : N)
  (upd : PasswordModel.Updates) (d : PasswordDoc) :
  immutable_user opts = true \/ PasswordModel.set_user upd = None ->
  user (PasswordModel.applySet opts now upd d) = user d.
Proof.
  intros [H|H]; unfold PasswordModel.applySet; cbn [user]; rewrite H;
    [reflexivity|].
  destruct (immutable_user opts); reflexivity.
Qed.

Lemma updateFirst_owners (f : Filter) (g : PasswordDoc -> PasswordDoc)
  (l : list PasswordDoc) :
  (forall d, user (g d) = user d) ->
  map user (PasswordModel.updateFirst f g l) = map user l.
Proof.
  intros Hg. induction l as [|x l IH]; simpl; [reflexivity|].
  destruct (matches f x); simpl; [now rewrite Hg | now rewrite IH].
Qed.

(** An edit whose body has no [user] key, or any edit under a schema that
    declares [user] immutable, leaves every owner as it was. *)
Lemma editPassword_owner_kept (opts : SchemaOptions) (now : N)
  (A id : ObjectId) (upd : PasswordModel.Updates) (s : Store) :
  immutable_user opts = true \/ PasswordModel.set_user upd = None ->
  map user (docs (fst (editPassword opts now A id upd s))) = map user (docs s).
Proof.
  intros H.
  destruct (editPassword_cases opts now A id upd s)
    as [[m E] | [[_ [e E]] | [d [_ E]]]]; rewrite E; cbn [fst docs];
    try reflexivity.
  apply updateFirst_owners. intros x. now apply applySet_owner_kept.
Qed.

Lemma updateFirst_found (f : Filter) (g : PasswordDoc -> PasswordDoc)
  (s : Store) (d : PasswordDoc) :
  PasswordModel.findOne f s = Some d ->
  In (g d) (PasswordModel.updateFirst f g (docs s)).
Proof.
  unfold PasswordModel.findOne.
  induction (docs s) as [|x l IH]; cbn [find PasswordModel.updateFirst];
    [discriminate|].
  destruct (matches f x).
  - intros H. injection H as ->. left. reflexivity.
  - intros H. right. now apply IH.
Qed.

(** The handler puts the body into [$set] as it is: a [user] key in it
    replaces the owner of the requester's document (the schema declaring
    neither [user] immutable nor the unique index). *)
Lemma editPassword_sets_owner (opts : SchemaOptions) (now : N)
  (A B id : ObjectId) (upd : PasswordModel.Updates) (s : Store)
  (d : PasswordDoc) :
  immutable_user opts = false ->
  unique_user_websiteName_url opts = false ->
  PasswordModel.findOne (editPassword_filter A id) s = Some d ->
  PasswordModel.set_user upd = Some B ->
  PasswordModel.set__id upd = None ->
  exists u,
    snd (editPassword opts now A id upd s)
    = Json 200 (BUpdated "Password updated successfully" u) /\
    _id u = _id d /\ user u = B /\
    In u (docs (fst (editPassword opts now A id upd s))).
Proof.
  intros Him Huq Hf Hu Hid.
  unfold editPassword, PasswordModel.findOneAndUpdate.
  rewrite Hf. unfold PasswordModel.changes_id, PasswordModel.collides.
  rewrite Hid, Huq. cbn [andb].
  exists (PasswordModel.applySet opts now upd d).
  split; [reflexivity|]. split; [reflexivity|].
  split.
  - unfold PasswordModel.applySet. cbn [user]. now rewrite Him, Hu.
  - cbn [fst docs]. now apply updateFirst_found.
Qed.

(** C3 does not hold of [editPassword]: Alice edits her own entry with the
    body [{ user: bob }]; the handler answers 200, the document now belongs
    to Bob, Alice can no longer read it and Bob can.  ([addPassword], by
    contrast, takes the owner from the authenticated request and picks the
    other fields out of the body one by one.) *)
Theorem editPassword_reassigns_owner (uniqueIndex : bool) :
  map user (docs aliceStore) = [alice] /\
  map user (docs (fst (editPassword (mutableOwnerSchema uniqueIndex) 40%N
                         alice 0%N transferUpdates aliceStore))) = [bob] /\
  (exists d,
     snd (editPassword (mutableOwnerSchema uniqueIndex) 40%N alice 0%N
            transferUpdates aliceStore)
     = Json 200 (BUpdated "Password updated successfully" d) /\
     user d = bob) /\
  getSinglePassword alice 0%N
    (fst (editPassword (mutableOwnerSchema uniqueIndex) 40%N alice 0%N
            transferUpdates aliceStore))
  = Next {| message := "Password not found or access denied.";
            statusCode := 404 |} /\
  (exists d,
     getSinglePassword bob 0%N
       (fst (editPassword (mutableOwnerSchema uniqueIndex) 40%N alice 0%N
               transferUpdates aliceStore))
     = Json 200 (BData d) /\
     user d = bob /\
     password d = {| encPassword := "a71b"; password_iv := "5d5d" |}).
Proof.
  destruct uniqueIndex.
  - split; [reflexivity|]. split; [reflexivity|].
    split; [eexists; split; reflexivity|].
    split; [reflexivity|].
    eexists. repeat split.
  - split; [reflexivity|]. split; [reflexivity|].
    split; [eexists; split; reflexivity|].
    split; [reflexivity|].
    eexists. repeat split.
Qed.

(** ** Two requests at once *)

(** Run to its end with nothing in between, a pending request is
    [addPassword]. *)
Lemma stepTask_serial (opts : SchemaOptions) (now : N) (u : ObjectId)
  (b : AddBody) (s : Store) :
  stepTask opts (snd (stepTask opts (Pending now u b) s))
                (fst (stepTask opts (Pending now u b) s))
  = (fst (addPassword opts now u b s),
     Finished (snd (addPassword opts now u b s))).
Proof.
  cbn [stepTask fst snd]. unfold addPassword.
  destruct (addPassword_continue opts now u b
              (PasswordModel.findOne (addPassword_filter u b) s) s).
  reflexivity.
Qed.

(** Served one after the other, the two requests leave one document and the
    second is answered 400. *)
Example serial_adds_conflict (uniqueIndex immutableUser : bool) :
  first (runSchedule (indexSchema uniqueIndex immutableUser) raceStart
           serialSchedule) = Finished createdMessage /\
  second (runSchedule (indexSchema uniqueIndex immutableUser) raceStart
            serialSchedule) = Finished conflictMessage /\
  List.length
    (entriesFor alice "GitHub" "https://github.com"
       (store (runSchedule (indexSchema uniqueIndex immutableUser) raceStart
                 serialSchedule))) = 1%nat.
Proof. destruct uniqueIndex, immutableUser; repeat split. Qed.

(** C8 does not hold of [addPassword]: when both [findOne] calls are
    answered before either handler continues, both handlers insert.  With
    no unique index the collection ends with two documents for the same
    (user, websiteName, url) and both requests are answered 201; with the
    index there is one document, and the second request gets the store's
    E11000 error as a 500, not the 400 conflict answer. *)
Theorem addPassword_race (immutableUser : bool) :
  (first (runSchedule (indexSchema false immutableUser) raceStart
            racingSchedule) = Finished createdMessage /\
   second (runSchedule (indexSchema false immutableUser) raceStart
             racingSchedule) = Finished createdMessage /\
   List.length
     (entriesFor alice "GitHub" "https://github.com"
        (store (runSchedule (indexSchema false immutableUser) raceStart
                  racingSchedule))) = 2%nat) /\
  (first (runSchedule (indexSchema true immutableUser) raceStart
            racingSchedule) = Finished createdMessage /\
   second (runSchedule (indexSchema true immutableUser) raceStart
             racingSchedule) = Finished duplicateKeyError /\
   second (runSchedule (indexSchema true immutableUser) raceStart
             racingSchedule) <> Finished conflictMessage /\
   List.length
     (entriesFor alice "GitHub" "https://github.com"
        (store (runSchedule (indexSchema true immutableUser) raceStart
                  racingSchedule))) = 1%nat).
Proof.
  destruct immutableUser; (split; [repeat split|]);
    (split; [reflexivity|]); (split; [reflexivity|]);
    (split; [discriminate | reflexivity]).
Qed.

(** ** Every reachable collection is well formed *)

Lemma reachable_wf (opts : SchemaOptions) (s : Store) :
  reachable opts s -> wf s.
Proof.
  induction 1 as [|r s _ IH]; [apply wf_empty|].
  destruct r; cbn [handle].
  - now apply wf_addPassword.
  - now apply wf_editPassword.
  - now apply wf_deleteSinglePassword.
  - now apply wf_deleteMultiplePasswords.
Qed.

(** ** The list handler on the sample collection *)

Example getPassword_second_page :
  getPassword alice smallPageQuery sharedStore
  = Json 201 (BList {| page := Finite 2; limit := Finite 1; totalCount := 2;
                       totalPages := 2 |}
                    [passwordForClient aliceMailDoc]).
Proof. reflexivity. Qed.

Example getPassword_search_ignores_case :
  getPassword alice upperCaseSearchQuery sharedStore
  = Json 201 (BList {| page := Finite 1; limit := Finite 10; totalCount := 1;
                       totalPages := 1 |}
                    [passwordForClient aliceGithubDoc]).
Proof. reflexivity. Qed.

Example deletedMessage_two :
  deletedMessage 2 = "2 passwords have been successfully deleted.".
Proof. reflexivity. Qed.

(** * Further properties of the handlers *)

(** ** addPassword, one request at a time *)

Lemma addPassword_filter_spec (u : ObjectId) (b : AddBody) (d : PasswordDoc) :
  matches (addPassword_filter u b) d = true <->
  user d = u /\ websiteName d = body_websiteName b /\ url d = body_websiteUrl b.
Proof.
  unfold matches. simpl. rewrite andb_true_r, !andb_true_iff.
  rewrite N.eqb_eq, !String.eqb_eq. reflexivity.
Qed.

Lemma addPassword_found (opts : SchemaOptions) (now : N) (u : ObjectId)
  (b : AddBody) (s : Store) (d : PasswordDoc) :
  PasswordModel.findOne (addPassword_filter u b) s = Some d ->
  addPassword opts now u b s = (s, conflictMessage).
Proof.
  intros H. unfold addPassword, addPassword_continue. now rewrite H.
Qed.

(** The answer of [addPassword] depends on the check alone. *)
Lemma addPassword_answer (opts : SchemaOptions) (now : N) (u : ObjectId)
  (b : AddBody) (s : Store) :
  snd (addPassword opts now u b s)
  = if hasEntry u b s then conflictMessage else createdMessage.
Proof.
  unfold hasEntry.
  destruct (PasswordModel.findOne (addPassword_filter u b) s) as [d|] eqn:E.
  - now rewrite (addPassword_found opts now u b s d E).
  - now rewrite (addPassword_created opts now u b s E).
Qed.

(** Served alone, [addPassword] has two outcomes and no third: the 400
    answer with the collection untouched, exactly when the owner already has
    a document with that websiteName and url; or the 201 answer with one
    document appended, carrying the owner and the fields of the body.  The
    [catch] branch (500) is never taken, with or without the unique
    index. *)
Theorem addPassword_two_outcomes (opts : SchemaOptions) (now : N)
  (u : ObjectId) (b : AddBody) (s : Store) :
  (addPassword opts now u b s = (s, conflictMessage) /\
   exists d, In d (docs s) /\ user d = u /\
             websiteName d = body_websiteName b /\
             url d = body_websiteUrl b) \/
  (addPassword opts now u b s =
     ({| docs := docs s ++
                 [PasswordModel.mkDoc (nextId s) now (addPassword_fields u b)];
         nextId := N.succ (nextId s) |},
      createdMessage) /\
   forall d, In d (docs s) -> user d = u ->
             websiteName d = body_websiteName b ->
             url d <> body_websiteUrl b).
Proof.
  destruct (PasswordModel.findOne (addPassword_filter u b) s) as [d|] eqn:E.
  - left. split; [now apply (addPassword_found opts now u b s d)|].
    apply findOne_found in E. destruct E as [Hin Hm].
    apply addPassword_filter_spec in Hm. exists d. tauto.
  - right. split; [now apply addPassword_created|].
    intros d Hin Hu Hn Hurl.
    pose proof (find_none _ _ E d Hin) as Hno.
    assert (Hyes : matches (addPassword_filter u b) d = true)
      by (apply addPassword_filter_spec; tauto).
    congruence.
Qed.

(** Sending the same add request again is always answered 400 and changes
    nothing, whatever the first one did. *)
Theorem addPassword_again_conflicts (opts : SchemaOptions) (now1 now2 : N)
  (u : ObjectId) (b : AddBody) (s : Store) :
  addPassword opts now2 u b (fst (addPassword opts now1 u b s))
  = (fst (addPassword opts now1 u b s), conflictMessage).
Proof.
  destruct (PasswordModel.findOne (addPassword_filter u b) s) as [d|] eqn:E.
  - rewrite (addPassword_found opts now1 u b s d E). cbn [fst].
    now apply (addPassword_found opts now2 u b s d).
  - rewrite (addPassword_created opts now1 u b s E). cbn [fst].
    set (d := PasswordModel.mkDoc (nextId s) now1 (addPassword_fields u b)).
    apply (addPassword_found opts now2 u b _ d).
    unfold PasswordModel.findOne. cbn [docs].
    rewrite find_app_last by (apply find_none_forall; exact E).
    assert (Hm : matches (addPassword_filter u b) d = true)
      by (apply addPassword_filter_spec; repeat split).
    now rewrite Hm.
Qed.

Lemma find_app_miss {A : Type} (p : A -> bool) (l : list A) (x : A) :
  p x = false -> find p (l ++ [x]) = find p l.
Proof.
  intros Hx. induction l as [|y l IH]; simpl; [now rewrite Hx|].
  destruct (p y); [reflexivity | exact IH].
Qed.

(** What [addPassword] leaves behind: the collection it found, or that
    collection with one document of the requester at the end. *)
Lemma addPassword_store (opts : SchemaOptions) (now : N) (u : ObjectId)
  (b : AddBody) (s : Store) :
  fst (addPassword opts now u b s) = s \/
  docs (fst (addPassword opts now u b s))
  = (docs s ++ [PasswordModel.mkDoc (nextId s) now (addPassword_fields u b)])%list.
Proof.
  destruct (PasswordModel.findOne (addPassword_filter u b) s) as [d|] eqn:E.
  - left. now rewrite (addPassword_found opts now u b s d E).
  - right. now rewrite (addPassword_created opts now u b s E).
Qed.

Lemma hasEntry_other_owner (A B : ObjectId) (bA bB : AddBody) (s : Store)
  (i now : N) :
  A <> B ->
  hasEntry B bB
    {| docs := docs s ++ [PasswordModel.mkDoc i now (addPassword_fields A bA)];
       nextId := N.succ (nextId s) |}
  = hasEntry B bB s.
Proof.
  intros Hne. unfold hasEntry, PasswordModel.findOne. cbn [docs].
  rewrite find_app_miss; [reflexivity|].
  destruct (matches (addPassword_filter B bB)
              (PasswordModel.mkDoc i now (addPassword_fields A bA))) eqn:E;
    [|reflexivity].
  apply addPassword_filter_spec in E. destruct E as [Hu _].
  cbn in Hu. contradiction.
Qed.

(** An add request of one owner never changes the answer another owner's
    add request gets: B's request is answered after A's exactly as it would
    have been answered before it. *)
Theorem addPassword_owners_independent (opts : SchemaOptions) (nowA nowB : N)
  (A B : ObjectId) (bA bB : AddBody) (s : Store) (Hne : A <> B) :
  snd (addPassword opts nowB B bB (fst (addPassword opts nowA A bA s)))
  = snd (addPassword opts nowB B bB s).
Proof.
  rewrite !addPassword_answer.
  destruct (PasswordModel.findOne (addPassword_filter A bA) s) as [d|] eqn:E.
  - now rewrite (addPassword_found opts nowA A bA s d E).
  - rewrite (addPassword_created opts nowA A bA s E). cbn [fst].
    now rewrite hasEntry_other_owner.
Qed.

Lemma addPassword_owners_independent_witness :
  alice <> bob /\
  snd (addPassword plainSchema 9%N bob githubBody
         (fst (addPassword plainSchema 8%N alice githubBody emptyStore)))
  = createdMessage.
Proof.
  assert (Hne : alice <> bob) by discriminate.
  split; [exact Hne|].
  rewrite (addPassword_owners_independent plainSchema 8%N 9%N alice bob
             githubBody githubBody emptyStore Hne).
  reflexivity.
Defined.

(** ** One entry per owner, websiteName and url *)

Lemma NoDup_map_filter {A B : Type} (k : A -> B) (p : A -> bool) (l : list A) :
  NoDup (map k l) -> NoDup (map k (filter p l)).
Proof.
  induction l as [|x l IH]; simpl; intros H; [constructor|].
  inversion H as [|? ? Hx Hl]; subst.
  destruct (p x); simpl; [|now apply IH].
  constructor; [|now apply IH].
  intros Hc. apply Hx. apply in_map_iff in Hc. destruct Hc as (y & Hy & Hin).
  apply in_map_iff. exists y. split; [exact Hy|].
  apply filter_In in Hin. tauto.
Qed.

Lemma NoDup_map_removeFirst {B : Type} (k : PasswordDoc -> B) (f : Filter)
  (l : list PasswordDoc) :
  NoDup (map k l) -> NoDup (map k (PasswordModel.removeFirst f l)).
Proof.
  induction l as [|x l IH]; simpl; intros H; [constructor|].
  inversion H as [|? ? Hx Hl]; subst.
  destruct (matches f x); simpl; [exact Hl|].
  constructor; [|now apply IH].
  intros Hc. apply Hx. apply in_map_iff in Hc. destruct Hc as (y & Hy & Hin).
  apply in_map_iff. exists y. split; [exact Hy|].
  now apply (removeFirst_incl f l).
Qed.

Lemma addPassword_unique_entries (opts : SchemaOptions) (now : N)
  (u : ObjectId) (b : AddBody) (s : Store) :
  uniqueEntries s -> uniqueEntries (fst (addPassword opts now u b s)).
Proof.
  intros H.
  destruct (PasswordModel.findOne (addPassword_filter u b) s) as [d|] eqn:E.
  - now rewrite (addPassword_found opts now u b s d E).
  - rewrite (addPassword_created opts now u b s E).
    unfold uniqueEntries in *. cbn [fst docs]. rewrite map_app.
    apply NoDup_app; [exact H | repeat constructor; intros [] |].
    intros k Hk [Hc|[]]. subst k.
    apply in_map_iff in Hk. destruct Hk as (d & Hd & Hin).
    pose proof (find_none _ _ E d Hin) as Hno.
    assert (Hyes : matches (addPassword_filter u b) d = true).
    { apply addPassword_filter_spec. unfold entryKey in Hd. cbn in Hd.
      injection Hd as H1 H2 H3. auto. }
    congruence.
Qed.

(** Adding and deleting keep the collection free of duplicate entries: if no
    owner has two documents for one (websiteName, url) before an add, a
    delete-one or a delete-many request, none has after it. *)
Theorem handle_keeps_unique_entries (opts : SchemaOptions) (r : Request)
  (s : Store) (Hr : isEdit r = false) (Hs : uniqueEntries s) :
  uniqueEntries (fst (handle opts r s)).
Proof.
  destruct r as [now u b | now u i upd | u [pid|] | u [[|i ids]|]];
    cbn [handle]; try discriminate Hr; try exact Hs.
  - now apply addPassword_unique_entries.
  - unfold deleteSinglePassword, PasswordModel.deleteOne.
    match goal with |- context [if ?c then _ else _] => destruct c end;
      cbn [fst]; unfold uniqueEntries, PasswordModel.withDocs; cbn [docs];
      now apply NoDup_map_removeFirst.
  - unfold deleteMultiplePasswords, PasswordModel.deleteMany.
    match goal with |- context [if ?c then _ else _] => destruct c end;
      cbn [fst]; unfold uniqueEntries, PasswordModel.withDocs; cbn [docs];
      now apply NoDup_map_filter.
Qed.

Lemma handle_keeps_unique_entries_witness :
  uniqueEntries sharedStore /\
  uniqueEntries (fst (handle plainSchema (ReqAdd 60%N alice githubLowerBody)
                        sharedStore)).
Proof.
  assert (Hs : uniqueEntries sharedStore).
  { unfold uniqueEntries. cbn.
    repeat constructor; cbn; intros H;
      repeat (destruct H as [H|H]; [discriminate H|]); exact H. }
  split; [exact Hs|].
  exact (handle_keeps_unique_entries plainSchema
           (ReqAdd 60%N alice githubLowerBody) sharedStore eq_refl Hs).
Defined.

Lemma two_members {A : Type} (l : list A) (x y : A) :
  In x l -> In y l -> x <> y -> (2 <= List.length l)%nat.
Proof.
  destruct l as [|a [|b l]]; simpl; intros Hx Hy Hne; [contradiction| |lia].
  destruct Hx as [<-|[]], Hy as [<-|[]]. contradiction.
Qed.

Lemma same_key_not_NoDup {A B : Type} (k : A -> B) (l : list A) (x y : A) :
  In x l -> In y l -> x <> y -> k x = k y -> ~ NoDup (map k l).
Proof.
  induction l as [|a l IH]; simpl; intros Hx Hy Hne Hk Hnd; [contradiction|].
  inversion Hnd as [|? ? Ha Hl]; subst.
  destruct Hx as [<-|Hx], Hy as [<-|Hy].
  - contradiction.
  - apply Ha. rewrite Hk. now apply in_map.
  - apply Ha. rewrite <- Hk. now apply in_map.
  - now apply IH.
Qed.

Lemma entry_filter_holds (A : ObjectId) (name site : string)
  (d : PasswordDoc) :
  user d = A -> websiteName d = name -> url d = site ->
  matches [c_user A; c_websiteName name; c_url site] d = true.
Proof.
  intros Hu Hn Hs. unfold matches. simpl.
  now rewrite Hu, Hn, Hs, N.eqb_refl, !String.eqb_refl.
Qed.

(** [editPassword] does not repeat the check of [addPassword].  Renaming
    one of the requester's entries to the websiteName and url of another of
    their entries is, when the schema has no unique index, answered 200 and
    leaves two documents for that (owner, websiteName, url).  When the
    schema has the index, the store refuses the update; the handler has no
    [catch], so the request ends as a rejected promise with the store's
    E11000 message, not as a 400 answer, and nothing is written. *)
Theorem editPassword_can_duplicate (opts : SchemaOptions) (now : N)
  (A i : ObjectId) (d1 d2 : PasswordDoc) (s : Store)
  (Hfound : PasswordModel.findOne (editPassword_filter A i) s = Some d1)
  (Hin2 : In d2 (docs s)) (Hown2 : user d2 = A) (Hid2 : _id d2 <> i) :
  (unique_user_websiteName_url opts = false ->
   snd (editPassword opts now A i (renameUpdates (websiteName d2) (url d2)) s)
   = Json 200 (BUpdated "Password updated successfully"
                 (PasswordModel.applySet opts now
                    (renameUpdates (websiteName d2) (url d2)) d1)) /\
   (2 <= List.length
           (entriesFor A (websiteName d2) (url d2)
              (fst (editPassword opts now A i
                      (renameUpdates (websiteName d2) (url d2)) s))))%nat /\
   ~ uniqueEntries
       (fst (editPassword opts now A i
               (renameUpdates (websiteName d2) (url d2)) s))) /\
  (unique_user_websiteName_url opts = true ->
   websiteName d1 <> websiteName d2 \/ url d1 <> url d2 ->
   editPassword opts now A i (renameUpdates (websiteName d2) (url d2)) s
   = (s, Rejected "E11000 duplicate key error collection: passwords")).
Proof.
  set (upd := renameUpdates (websiteName d2) (url d2)).
  set (e := PasswordModel.applySet opts now upd d1).
  pose proof (findOne_found _ _ _ Hfound) as [Hin1 Hm1].
  assert (Hu1 : user d1 = A)
    by (apply (matches_user (editPassword_filter A i));
        [right; left; reflexivity | exact Hm1]).
  assert (Hi1 : _id d1 = i).
  { unfold matches in Hm1. simpl in Hm1.
    apply andb_true_iff in Hm1. now apply N.eqb_eq. }
  assert (Hue : user e = A).
  { unfold e, PasswordModel.applySet. cbn [user].
    destruct (immutable_user opts); exact Hu1. }
  assert (Hne : e <> d2).
  { intros Hc. apply Hid2. rewrite <- Hc. exact Hi1. }
  assert (Hno2 : matches (editPassword_filter A i) d2 = false).
  { unfold matches. simpl.
    replace (_id d2 =? i)%N with false; [reflexivity|].
    symmetry. now apply N.eqb_neq. }
  split.
  - intros Huq.
    assert (E : editPassword opts now A i upd s
                = ({| docs := PasswordModel.updateFirst (editPassword_filter A i)
                                (PasswordModel.applySet opts now upd) (docs s);
                      nextId := nextId s |},
                   Json 200 (BUpdated "Password updated successfully" e))).
    { unfold editPassword, PasswordModel.findOneAndUpdate,
        PasswordModel.collides.
      now rewrite Hfound, Huq. }
    rewrite E. cbn [fst snd].
    assert (He : In e (PasswordModel.updateFirst (editPassword_filter A i)
                         (PasswordModel.applySet opts now upd) (docs s)))
      by (now apply updateFirst_found).
    assert (Hd2 : In d2 (PasswordModel.updateFirst (editPassword_filter A i)
                           (PasswordModel.applySet opts now upd) (docs s)))
      by (now apply updateFirst_keeps).
    split; [reflexivity|]. split.
    + apply (two_members _ e d2); [| |exact Hne];
        unfold entriesFor; cbn [docs]; apply filter_In; (split; [assumption|]).
      * now apply entry_filter_holds.
      * now apply entry_filter_holds.
    + unfold uniqueEntries. cbn [docs].
      apply (same_key_not_NoDup entryKey _ e d2 He Hd2 Hne).
      unfold entryKey. rewrite Hue, Hown2. reflexivity.
  - intros Huq Hren.
    unfold editPassword, PasswordModel.findOneAndUpdate.
    rewrite Hfound. cbn [PasswordModel.changes_id upd renameUpdates
                           PasswordModel.set__id].
    fold upd. fold e.
    assert (Hc : PasswordModel.collides opts (editPassword_filter A i) d1 e s
                 = true).
    { unfold PasswordModel.collides. rewrite Huq. cbn [andb].
      apply andb_true_iff. split.
      - apply negb_true_iff. unfold PasswordModel.sameKey.
        change (websiteName e) with (websiteName d2).
        change (url e) with (url d2).
        destruct Hren as [Hn|Hu].
        + apply not_eq_sym, String.eqb_neq in Hn. rewrite Hn.
          now rewrite andb_false_r.
        + apply not_eq_sym, String.eqb_neq in Hu. rewrite Hu.
          now rewrite andb_false_r.
      - apply existsb_exists. exists d2. split.
        + now apply removeFirst_keeps.
        + unfold PasswordModel.sameKey.
          change (websiteName e) with (websiteName d2).
          change (url e) with (url d2).
          now rewrite Hue, Hown2, N.eqb_refl, !String.eqb_refl. }
    now rewrite Hc.
Qed.

Lemma editPassword_can_duplicate_witness :
  uniqueEntries sharedStore /\
  ~ uniqueEntries
      (fst (editPassword plainSchema 70%N alice 1%N
              (renameUpdates "GitHub" "https://github.com") sharedStore)) /\
  editPassword (indexSchema true false) 70%N alice 1%N
    (renameUpdates "GitHub" "https://github.com") sharedStore
  = (sharedStore, Rejected "E11000 duplicate key error collection: passwords").
Proof.
  assert (Hin : In aliceGithubDoc (docs sharedStore)) by (left; reflexivity).
  assert (Hid : _id aliceGithubDoc <> 1%N) by discriminate.
  split; [|split].
  - unfold uniqueEntries. cbn.
    repeat constructor; cbn; intros H;
      repeat (destruct H as [H|H]; [discriminate H|]); exact H.
  - exact (proj2 (proj2 (proj1 (editPassword_can_duplicate plainSchema 70%N
                                  alice 1%N aliceMailDoc aliceGithubDoc
                                  sharedStore eq_refl Hin eq_refl Hid)
                           eq_refl))).
  - apply (proj2 (editPassword_can_duplicate (indexSchema true false) 70%N
                    alice 1%N aliceMailDoc aliceGithubDoc sharedStore
                    eq_refl Hin eq_refl Hid) eq_refl).
    left. discriminate.
Defined.

(** ** Reading, editing and deleting one entry *)

Lemma id_user_filter_spec (A id : ObjectId) (d : PasswordDoc) :
  matches [c_id id; c_user A] d = true <-> _id d = id /\ user d = A.
Proof.
  unfold matches. simpl. rewrite andb_true_r, andb_true_iff, !N.eqb_eq.
  reflexivity.
Qed.

Lemma findOne_none_spec (A id : ObjectId) (s : Store) :
  PasswordModel.findOne [c_id id; c_user A] s = None <->
  (forall d, In d (docs s) -> _id d = id -> user d <> A).
Proof.
  unfold PasswordModel.findOne. split.
  - intros E d Hin Hid Hu.
    pose proof (find_none _ _ E d Hin) as Hno.
    assert (Hyes : matches [c_id id; c_user A] d = true)
      by (apply id_user_filter_spec; tauto).
    congruence.
  - intros H. destruct (find (matches [c_id id; c_user A]) (docs s)) as [d|] eqn:E;
      [|reflexivity].
    apply find_some in E. destruct E as [Hin Hm].
    apply id_user_filter_spec in Hm. destruct Hm as [Hid Hu].
    exfalso. exact (H d Hin Hid Hu).
Qed.

(** Where the first match sits, and what updating or removing it gives. *)
Lemma first_match_split (f : Filter) (g : PasswordDoc -> PasswordDoc)
  (l : list PasswordDoc) (d : PasswordDoc) :
  find (matches f) l = Some d ->
  exists l1 l2,
    l = (l1 ++ d :: l2)%list /\
    Forall (fun x => matches f x = false) l1 /\
    PasswordModel.updateFirst f g l = (l1 ++ g d :: l2)%list /\
    PasswordModel.removeFirst f l = (l1 ++ l2)%list.
Proof.
  induction l as [|x l IH]; cbn [find PasswordModel.updateFirst
                                   PasswordModel.removeFirst]; [discriminate|].
  destruct (matches f x) eqn:E.
  - intros H. injection H as ->. exists [], l. repeat split. constructor.
  - intros H. destruct (IH H) as (l1 & l2 & -> & Hl1 & Hu & Hr).
    exists (x :: l1), l2. rewrite Hu, Hr. repeat split.
    constructor; assumption.
Qed.

Lemma removeFirst_none (f : Filter) (l : list PasswordDoc) :
  find (matches f) l = None -> PasswordModel.removeFirst f l = l.
Proof.
  induction l as [|x l IH]; cbn [find PasswordModel.removeFirst];
    [reflexivity|].
  destruct (matches f x); [discriminate|]. intros H. now rewrite IH.
Qed.

Lemma store_eta (s : Store) : {| docs := docs s; nextId := nextId s |} = s.
Proof. destruct s. reflexivity. Qed.

(** [getSinglePassword] answers 200 with a document of the collection that
    has the requested id and the requester as owner, or 404; it answers 404
    exactly when no document has both, so an id that belongs to someone else
    and an id that does not exist get the same answer. *)
Theorem getSinglePassword_answers (A id : ObjectId) (s : Store) :
  (exists p, getSinglePassword A id s = Json 200 (BData p) /\
             In p (docs s) /\ _id p = id /\ user p = A) \/
  (getSinglePassword A id s = notFoundSingle /\
   forall d, In d (docs s) -> _id d = id -> user d <> A).
Proof.
  unfold getSinglePassword, getSinglePassword_filter.
  destruct (PasswordModel.findOne [c_id id; c_user A] s) as [p|] eqn:E.
  - left. exists p. apply findOne_found in E. destruct E as [Hin Hm].
    apply id_user_filter_spec in Hm. tauto.
  - right. split; [reflexivity|]. now apply findOne_none_spec.
Qed.

(** [editPassword] on an id the requester has no document for is answered
    404, whatever the body, and the collection is not touched. *)
Theorem editPassword_not_found (opts : SchemaOptions) (now : N)
  (A id : ObjectId) (upd : PasswordModel.Updates) (s : Store)
  (Hnone : forall d, In d (docs s) -> _id d = id -> user d <> A) :
  editPassword opts now A id upd s = (s, notFoundEdit).
Proof.
  apply findOne_none_spec in Hnone.
  unfold editPassword, PasswordModel.findOneAndUpdate, editPassword_filter.
  now rewrite Hnone.
Qed.

Lemma editPassword_not_found_witness :
  editPassword plainSchema 80%N alice (_id bobDoc) transferUpdates sharedStore
  = (sharedStore, notFoundEdit).
Proof.
  apply (editPassword_not_found plainSchema 80%N alice (_id bobDoc)
           transferUpdates sharedStore).
  intros d [<-|[<-|[<-|[]]]] Hid; try discriminate Hid. discriminate.
Defined.

(** A 200 answer of [editPassword] means one document changed and nothing
    else: the collection is the old one with the requester's first document
    of that id replaced, in place, by the document sent back; the number and
    the order of the documents, every other document and [nextId] are as
    before, and the document keeps its [_id] and [createdAt]. *)
Theorem editPassword_changes_one (opts : SchemaOptions) (now : N)
  (A id : ObjectId) (upd : PasswordModel.Updates) (s : Store)
  (st : nat) (m : string) (u : PasswordDoc)
  (Hok : snd (editPassword opts now A id upd s) = Json st (BUpdated m u)) :
  exists l1 d l2,
    docs s = (l1 ++ d :: l2)%list /\
    docs (fst (editPassword opts now A id upd s)) = (l1 ++ u :: l2)%list /\
    nextId (fst (editPassword opts now A id upd s)) = nextId s /\
    _id d = id /\ user d = A /\
    _id u = id /\ createdAt u = createdAt d /\ updatedAt u = now /\
    Forall (fun x => _id x <> id \/ user x <> A) l1.
Proof.
  destruct (editPassword_cases opts now A id upd s)
    as [[e E] | [[_ [e E]] | [d [Hf E]]]]; rewrite E in *; cbn [fst snd] in *;
    try discriminate Hok.
  injection Hok as _ _ <-.
  destruct (first_match_split _ (PasswordModel.applySet opts now upd) _ _ Hf)
    as (l1 & l2 & Hs & Hl1 & Hu & _).
  apply findOne_found in Hf. destruct Hf as [_ Hm].
  apply id_user_filter_spec in Hm. destruct Hm as [Hid Hown].
  exists l1, d, l2. cbn [docs nextId].
  repeat split; try assumption.
  eapply Forall_impl; [|exact Hl1]. cbv beta. intros x Hx.
  destruct (N.eq_dec (_id x) id) as [Hi|Hi]; [|now left].
  destruct (N.eq_dec (user x) A) as [Hux|Hux]; [|now right].
  assert (Hyes : matches (editPassword_filter A id) x = true)
    by (apply id_user_filter_spec; tauto).
  congruence.
Qed.

Lemma editPassword_changes_one_witness :
  exists l1 d l2 u,
    docs sharedStore = (l1 ++ d :: l2)%list /\
    docs (fst (editPassword plainSchema 80%N alice 1%N
                 (renameUpdates "Post" "https://post.example") sharedStore))
    = (l1 ++ u :: l2)%list /\
    websiteName u = "Post" /\ _id d = 1%N /\ user d = alice.
Proof.
  destruct (editPassword_changes_one plainSchema 80%N alice 1%N
              (renameUpdates "Post" "https://post.example") sharedStore
              200 "Password updated successfully"
              (PasswordModel.applySet plainSchema 80%N
                 (renameUpdates "Post" "https://post.example") aliceMailDoc)
              eq_refl) as (l1 & d & l2 & Hs & Hs' & _ & Hid & Hu & _).
  exists l1, d, l2. eexists. split; [exact Hs|]. split; [exact Hs'|].
  split; [reflexivity|]. split; assumption.
Defined.

(** [deleteSinglePassword] has three outcomes: 400 for a missing id; 200
    with exactly one document gone, the requester's first document of that
    id, the others left in order; or 404 with the collection untouched, when
    the requester has no document of that id. *)
Theorem deleteSinglePassword_outcomes (A : ObjectId)
  (passwordId : option ObjectId) (s : Store) :
  match passwordId with
  | None =>
      deleteSinglePassword A None s
      = (s, Next {| message := "Password ID is required."; statusCode := 400 |})
  | Some id =>
      (exists l1 d l2,
          docs s = (l1 ++ d :: l2)%list /\ _id d = id /\ user d = A /\
          deleteSinglePassword A (Some id) s
          = ({| docs := l1 ++ l2; nextId := nextId s |}, deletedOne)) \/
      ((forall d, In d (docs s) -> _id d = id -> user d <> A) /\
       deleteSinglePassword A (Some id) s = (s, notFoundDelete))
  end.
Proof.
  destruct passwordId as [id|]; [|reflexivity].
  unfold deleteSinglePassword, PasswordModel.deleteOne,
    deleteSinglePassword_filter, PasswordModel.withDocs.
  destruct (PasswordModel.findOne [c_id id; c_user A] s) as [d|] eqn:E.
  - left.
    destruct (first_match_split _ (fun x => x) _ _ E)
      as (l1 & l2 & Hs & _ & _ & Hr).
    apply findOne_found in E. destruct E as [_ Hm].
    apply id_user_filter_spec in Hm. destruct Hm as [Hid Hu].
    exists l1, d, l2. rewrite Hr, Hs.
    repeat split; try assumption.
    replace (List.length (l1 ++ d :: l2) - List.length (l1 ++ l2))%nat
      with 1%nat by (rewrite !length_app; simpl; lia).
    reflexivity.
  - right. split; [now apply findOne_none_spec|].
    rewrite (removeFirst_none _ _ E), Nat.sub_diag. cbn.
    now rewrite store_eta.
Qed.

(** ** Ids *)

Lemma uniqueIds_addPassword (opts : SchemaOptions) (now : N) (u : ObjectId)
  (b : AddBody) (s : Store) :
  wf s -> uniqueIds s -> uniqueIds (fst (addPassword opts now u b s)).
Proof.
  intros Hwf H.
  destruct (PasswordModel.findOne (addPassword_filter u b) s) as [d|] eqn:E.
  - now rewrite (addPassword_found opts now u b s d E).
  - rewrite (addPassword_created opts now u b s E).
    unfold uniqueIds in *. cbn [fst docs]. rewrite map_app.
    apply NoDup_app; [exact H | repeat constructor; intros [] |].
    intros k Hk [Hc|[]]. subst k. cbn in Hk.
    apply in_map_iff in Hk. destruct Hk as (d & Hd & Hin).
    unfold wf in Hwf. rewrite Forall_forall in Hwf.
    specialize (Hwf d Hin). unfold ObjectId in *. lia.
Qed.

Lemma uniqueIds_handle (opts : SchemaOptions) (r : Request) (s : Store) :
  wf s -> uniqueIds s -> uniqueIds (fst (handle opts r s)).
Proof.
  intros Hwf H.
  destruct r as [now u b | now u i upd | u [pid|] | u [[|i ids]|]];
    cbn [handle]; try exact H.
  - now apply uniqueIds_addPassword.
  - destruct (editPassword_cases opts now u i upd s)
      as [[m E] | [[_ [e E]] | [d [_ E]]]]; rewrite E; cbn [fst];
      try exact H.
    unfold uniqueIds. cbn [docs]. now rewrite updateFirst_ids.
  - unfold deleteSinglePassword, PasswordModel.deleteOne.
    match goal with |- context [if ?c then _ else _] => destruct c end;
      cbn [fst]; unfold uniqueIds, PasswordModel.withDocs; cbn [docs];
      now apply NoDup_map_removeFirst.
  - unfold deleteMultiplePasswords, PasswordModel.deleteMany.
    match goal with |- context [if ?c then _ else _] => destruct c end;
      cbn [fst]; unfold uniqueIds, PasswordModel.withDocs; cbn [docs];
      now apply NoDup_map_filter.
Qed.

Lemma wf_handle (opts : SchemaOptions) (r : Request) (s : Store) :
  wf s -> wf (fst (handle opts r s)).
Proof.
  intros H. destruct r; cbn [handle].
  - now apply wf_addPassword.
  - now apply wf_editPassword.
  - now apply wf_deleteSinglePassword.
  - now apply wf_deleteMultiplePasswords.
Qed.

(** Every collection the handlers can build has no two documents with the
    same [_id]. *)
Lemma reachable_uniqueIds (opts : SchemaOptions) (s : Store) :
  reachable opts s -> uniqueIds s.
Proof.
  intros H. assert (K : wf s /\ uniqueIds s); [|tauto].
  induction H as [|r s _ [Hwf Hu]].
  - split; [apply wf_empty | constructor].
  - split; [now apply wf_handle | now apply uniqueIds_handle].
Qed.

Lemma deleteSinglePassword_docs (A id : ObjectId) (s : Store) :
  fst (deleteSinglePassword A (Some id) s)
  = {| docs := PasswordModel.removeFirst [c_id id; c_user A] (docs s);
       nextId := nextId s |}.
Proof.
  unfold deleteSinglePassword, PasswordModel.deleteOne.
  match goal with |- context [if ?c then _ else _] => destruct c end;
    reflexivity.
Qed.

Lemma deleteMultiplePasswords_docs (A i : ObjectId) (ids : list ObjectId)
  (s : Store) :
  fst (deleteMultiplePasswords A (Some (i :: ids)) s)
  = {| docs := filter (fun d => negb (matches [c_id_in (i :: ids); c_user A] d))
                      (docs s);
       nextId := nextId s |}.
Proof.
  unfold deleteMultiplePasswords, PasswordModel.deleteMany.
  match goal with |- context [if ?c then _ else _] => destruct c end;
    reflexivity.
Qed.

Lemma no_match_after_first (A id : ObjectId) (x : PasswordDoc)
  (l : list PasswordDoc) :
  matches [c_id id; c_user A] x = true ->
  NoDup (map _id (x :: l)) ->
  Forall (fun y => matches [c_id id; c_user A] y = false) l.
Proof.
  intros Hx Hnd. apply id_user_filter_spec in Hx. destruct Hx as [Hid _].
  inversion Hnd as [|? ? Hn _]; subst.
  apply Forall_forall. intros y Hy.
  destruct (matches [c_id (_id x); c_user A] y) eqn:E; [|reflexivity].
  apply id_user_filter_spec in E. destruct E as [Hy' _].
  exfalso. apply Hn. rewrite <- Hy'. now apply in_map.
Qed.

Lemma find_all_false {A : Type} (p : A -> bool) (l : list A) :
  Forall (fun y => p y = false) l -> find p l = None.
Proof.
  induction 1 as [|y l Hy _ IH]; simpl; [reflexivity|]. now rewrite Hy.
Qed.

Lemma filter_all_true {A : Type} (p : A -> bool) (l : list A) :
  Forall (fun y => p y = true) l -> filter p l = l.
Proof.
  induction 1 as [|y l Hy _ IH]; simpl; [reflexivity|]. now rewrite Hy, IH.
Qed.

Lemma removed_is_gone (A id : ObjectId) (l : list PasswordDoc) :
  NoDup (map _id l) ->
  find (matches [c_id id; c_user A])
       (PasswordModel.removeFirst [c_id id; c_user A] l) = None.
Proof.
  induction l as [|x l IH]; intros Hnd; cbn [PasswordModel.removeFirst];
    [reflexivity|].
  destruct (matches [c_id id; c_user A] x) eqn:E.
  - apply find_all_false. now apply (no_match_after_first A id x).
  - cbn [find]. rewrite E. apply IH. now inversion Hnd.
Qed.

(** Once [deleteSinglePassword] has run for an id, the requester can no
    longer read a document under that id, and deleting it again is answered
    404 and changes nothing (on a collection whose ids are distinct). *)
Theorem deleteSinglePassword_then_gone (A id : ObjectId) (s : Store)
  (Hids : uniqueIds s) :
  getSinglePassword A id (fst (deleteSinglePassword A (Some id) s))
  = notFoundSingle /\
  deleteSinglePassword A (Some id) (fst (deleteSinglePassword A (Some id) s))
  = (fst (deleteSinglePassword A (Some id) s), notFoundDelete).
Proof.
  rewrite deleteSinglePassword_docs.
  set (s' := {| docs := _; nextId := _ |}).
  assert (E : PasswordModel.findOne [c_id id; c_user A] s' = None)
    by (apply removed_is_gone; exact Hids).
  split.
  - unfold getSinglePassword, getSinglePassword_filter. now rewrite E.
  - unfold deleteSinglePassword, PasswordModel.deleteOne,
      deleteSinglePassword_filter, PasswordModel.withDocs.
    rewrite (removeFirst_none _ _ E), Nat.sub_diag. cbn [Nat.eqb].
    now rewrite store_eta.
Qed.

Lemma deleteSinglePassword_then_gone_witness :
  uniqueIds sharedStore /\
  getSinglePassword alice 0%N
    (fst (deleteSinglePassword alice (Some 0%N) sharedStore))
  = notFoundSingle.
Proof.
  assert (Hs : uniqueIds sharedStore).
  { unfold uniqueIds. cbn.
    repeat constructor; cbn; intros H;
      repeat (destruct H as [H|H]; [discriminate H|]); exact H. }
  split; [exact Hs|].
  exact (proj1 (deleteSinglePassword_then_gone alice 0%N sharedStore Hs)).
Defined.

Lemma removeFirst_is_filter (A id : ObjectId) (l : list PasswordDoc) :
  NoDup (map _id l) ->
  PasswordModel.removeFirst [c_id id; c_user A] l
  = filter (fun d => negb (matches [c_id id; c_user A] d)) l.
Proof.
  induction l as [|x l IH]; intros Hnd;
    cbn [PasswordModel.removeFirst filter]; [reflexivity|].
  destruct (matches [c_id id; c_user A] x) eqn:E; cbn [negb].
  - symmetry. apply filter_all_true.
    eapply Forall_impl; [|exact (no_match_after_first A id x l E Hnd)].
    cbv beta. intros y ->. reflexivity.
  - f_equal. apply IH. now inversion Hnd.
Qed.

(** On a collection whose ids are distinct, [deleteMultiplePasswords] with a
    one-element array leaves the same collection as [deleteSinglePassword]
    with that id. *)
Theorem deleteMultiplePasswords_single (A id : ObjectId) (s : Store)
  (Hids : uniqueIds s) :
  fst (deleteMultiplePasswords A (Some [id]) s)
  = fst (deleteSinglePassword A (Some id) s).
Proof.
  rewrite deleteMultiplePasswords_docs, deleteSinglePassword_docs.
  f_equal. rewrite (removeFirst_is_filter A id _ Hids).
  apply filter_same. intros d. unfold matches, oid_in. simpl.
  now rewrite orb_false_r.
Qed.

Lemma deleteMultiplePasswords_single_witness :
  uniqueIds sharedStore /\
  fst (deleteMultiplePasswords alice (Some [1%N]) sharedStore)
  = fst (deleteSinglePassword alice (Some 1%N) sharedStore).
Proof.
  assert (Hs : uniqueIds sharedStore).
  { unfold uniqueIds. cbn.
    repeat constructor; cbn; intros H;
      repeat (destruct H as [H|H]; [discriminate H|]); exact H. }
  split; [exact Hs|].
  exact (deleteMultiplePasswords_single alice 1%N sharedStore Hs).
Defined.

Lemma filter_twice {A : Type} (p : A -> bool) (l : list A) :
  filter p (filter p l) = filter p l.
Proof.
  apply filter_all_true. apply Forall_forall. intros y Hy.
  apply filter_In in Hy. tauto.
Qed.

(** Repeating a [deleteMultiplePasswords] request is answered 404 and
    changes nothing: the first call has removed everything the second could
    remove. *)
Theorem deleteMultiplePasswords_again (A i : ObjectId) (ids : list ObjectId)
  (s : Store) :
  deleteMultiplePasswords A (Some (i :: ids))
    (fst (deleteMultiplePasswords A (Some (i :: ids)) s))
  = (fst (deleteMultiplePasswords A (Some (i :: ids)) s), notFoundDeleteMany).
Proof.
  rewrite deleteMultiplePasswords_docs.
  unfold deleteMultiplePasswords, PasswordModel.deleteMany,
    deleteMultiplePasswords_filter, PasswordModel.withDocs.
  cbn [docs nextId]. rewrite filter_twice, Nat.sub_diag. reflexivity.
Qed.

(** ** What a request leaves of the other owners' documents *)

Lemma others_updateFirst (A : ObjectId) (f : Filter)
  (g : PasswordDoc -> PasswordDoc) (l : list PasswordDoc) :
  (forall d, matches f d = true -> user d = A /\ user (g d) = A) ->
  filter (fun d => negb (N.eqb (user d) A)) (PasswordModel.updateFirst f g l)
  = filter (fun d => negb (N.eqb (user d) A)) l.
Proof.
  intros H. induction l as [|x l IH]; cbn [PasswordModel.updateFirst filter];
    [reflexivity|].
  destruct (matches f x) eqn:E; cbn [filter].
  - destruct (H x E) as [Hx Hg]. now rewrite Hx, Hg, N.eqb_refl.
  - now rewrite IH.
Qed.

Lemma others_removeFirst (A : ObjectId) (f : Filter) (l : list PasswordDoc) :
  (forall d, matches f d = true -> user d = A) ->
  filter (fun d => negb (N.eqb (user d) A)) (PasswordModel.removeFirst f l)
  = filter (fun d => negb (N.eqb (user d) A)) l.
Proof.
  intros H. induction l as [|x l IH]; cbn [PasswordModel.removeFirst filter];
    [reflexivity|].
  destruct (matches f x) eqn:E; cbn [filter].
  - now rewrite (H x E), N.eqb_refl.
  - now rewrite IH.
Qed.

Lemma others_filter (A : ObjectId) (f : Filter) (l : list PasswordDoc) :
  (forall d, matches f d = true -> user d = A) ->
  filter (fun d => negb (N.eqb (user d) A))
         (filter (fun d => negb (matches f d)) l)
  = filter (fun d => negb (N.eqb (user d) A)) l.
Proof.
  intros H. induction l as [|x l IH]; cbn [filter]; [reflexivity|].
  destruct (matches f x) eqn:E; cbn [negb filter].
  - now rewrite IH, (H x E), N.eqb_refl.
  - now rewrite IH.
Qed.

(** A request leaves the documents of everybody else exactly as they were,
    the same documents in the same order: whatever the request, its ids and
    its body, unless it is an edit that hands a document over to another
    owner. *)
Theorem handle_leaves_others (opts : SchemaOptions) (r : Request) (s : Store)
  (Hkeep : handsOver opts r = false) :
  notOwnedBy (requester r) (fst (handle opts r s))
  = notOwnedBy (requester r) s.
Proof.
  unfold notOwnedBy.
  destruct r as [now u b | now u i upd | u [pid|] | u [[|i ids]|]];
    cbn [handle requester]; try reflexivity.
  - destruct (addPassword_store opts now u b s) as [-> | ->]; [reflexivity|].
    rewrite filter_app. cbn. rewrite N.eqb_refl. cbn. apply List.app_nil_r.
  - destruct (editPassword_cases opts now u i upd s)
      as [[m E] | [[_ [e E]] | [d [_ E]]]]; rewrite E; cbn [fst docs];
      try reflexivity.
    apply others_updateFirst. intros x Hx.
    apply id_user_filter_spec in Hx. destruct Hx as [_ Hu].
    split; [exact Hu|].
    unfold PasswordModel.applySet. cbn [user].
    cbn [handsOver] in Hkeep.
    destruct (immutable_user opts); [exact Hu|].
    destruct (PasswordModel.set_user upd) as [o|]; [|exact Hu].
    cbn in Hkeep. apply negb_false_iff, N.eqb_eq in Hkeep. exact Hkeep.
  - rewrite deleteSinglePassword_docs. cbn [docs].
    apply others_removeFirst. intros x Hx.
    now apply id_user_filter_spec in Hx.
  - rewrite deleteMultiplePasswords_docs. cbn [docs].
    apply others_filter. intros x Hx.
    apply (matches_user [c_id_in (i :: ids); c_user u]);
      [right; left; reflexivity | exact Hx].
Qed.

Lemma handle_leaves_others_witness :
  notOwnedBy alice
    (fst (handle plainSchema (ReqDeleteMany alice (Some [0%N; 1%N; 2%N]))
            sharedStore))
  = [bobDoc].
Proof.
  exact (eq_trans
           (handle_leaves_others plainSchema
              (ReqDeleteMany alice (Some [0%N; 1%N; 2%N])) sharedStore eq_refl)
           eq_refl).
Defined.

(** ** Adding, then deleting *)

Lemma removeFirst_app_last (f : Filter) (l : list PasswordDoc)
  (d : PasswordDoc) :
  Forall (fun x => matches f x = false) l -> matches f d = true ->
  PasswordModel.removeFirst f (l ++ [d]) = l.
Proof.
  intros Hl Hd. induction Hl as [|x l Hx _ IH]; cbn [app PasswordModel.removeFirst].
  - now rewrite Hd.
  - now rewrite Hx, IH.
Qed.

(** Deleting the entry [addPassword] has just created, by its id, is
    answered 200 and gives back the documents there were before the add. *)
Theorem addPassword_then_delete (opts : SchemaOptions) (now : N)
  (u : ObjectId) (b : AddBody) (s : Store)
  (Hwf : wf s)
  (Hadd : snd (addPassword opts now u b s) = createdMessage) :
  snd (deleteSinglePassword u (Some (nextId s))
         (fst (addPassword opts now u b s))) = deletedOne /\
  docs (fst (deleteSinglePassword u (Some (nextId s))
               (fst (addPassword opts now u b s)))) = docs s.
Proof.
  apply addPassword_created_inv in Hadd.
  rewrite (addPassword_created opts now u b s Hadd). cbn [fst].
  assert (Hr : PasswordModel.removeFirst [c_id (nextId s); c_user u]
                 (docs s ++ [PasswordModel.mkDoc (nextId s) now
                               (addPassword_fields u b)])
               = docs s).
  { apply removeFirst_app_last; [apply (wf_fresh_id s u Hwf)|].
    apply id_user_filter_spec. split; reflexivity. }
  split.
  - unfold deleteSinglePassword, PasswordModel.deleteOne,
      deleteSinglePassword_filter, PasswordModel.withDocs.
    cbn [docs nextId]. rewrite Hr, length_app. cbn [List.length].
    replace (List.length (docs s) + 1 - List.length (docs s))%nat
      with 1%nat by lia.
    reflexivity.
  - rewrite deleteSinglePassword_docs. cbn [docs]. exact Hr.
Qed.

Lemma addPassword_then_delete_witness :
  docs (fst (deleteSinglePassword alice (Some (nextId sharedStore))
               (fst (addPassword plainSchema 90%N alice githubLowerBody
                       sharedStore))))
  = docs sharedStore.
Proof.
  assert (Hwf : wf sharedStore) by (repeat constructor).
  exact (proj2 (addPassword_then_delete plainSchema 90%N alice githubLowerBody
                  sharedStore Hwf eq_refl)).
Defined.

(** ** Requests of different owners in flight *)

Lemma hasEntry_findOne (u : ObjectId) (b : AddBody) (s : Store) :
  hasEntry u b s = false ->
  PasswordModel.findOne (addPassword_filter u b) s = None.
Proof.
  unfold hasEntry.
  destruct (PasswordModel.findOne (addPassword_filter u b) s);
    [discriminate | reflexivity].
Qed.

Lemma addPassword_continue_fresh (opts : SchemaOptions) (now : N)
  (u : ObjectId) (b : AddBody) (s : Store) :
  hasEntry u b s = false ->
  addPassword_continue opts now u b None s
  = ({| docs := docs s ++
                [PasswordModel.mkDoc (nextId s) now (addPassword_fields u b)];
        nextId := N.succ (nextId s) |},
     createdMessage).
Proof.
  intros H. apply hasEntry_findOne in H.
  rewrite <- (addPassword_created opts now u b s H).
  unfold addPassword. now rewrite H.
Qed.

(** A step of a request keeps the request in agreement. *)
Lemma stepTask_own (opts : SchemaOptions) (u : ObjectId) (b : AddBody)
  (s0 : Store) (t : AddTask) (cur : Store) :
  taskAgrees u b s0 t cur ->
  taskAgrees u b s0 (snd (stepTask opts t cur)) (fst (stepTask opts t cur)).
Proof.
  destruct t as [now u' b' | now u' b' e | out]; cbn [taskAgrees stepTask].
  - intros (-> & -> & H). cbn [fst snd taskAgrees].
    repeat split; exact H.
  - intros (-> & -> & Hc & He).
    destruct e as [d|]; cbn [addPassword_continue fst snd taskAgrees].
    + cbn in He. now rewrite <- He.
    + cbn in He. rewrite <- He in Hc.
      fold (addPassword_continue opts now u b None cur).
      rewrite (addPassword_continue_fresh opts now u b cur Hc).
      cbn [fst snd taskAgrees]. now rewrite <- He.
  - intros H. exact H.
Qed.

(** A step of a request of one owner does not change what the check of
    another owner's request finds. *)
Lemma stepTask_other (opts : SchemaOptions) (u u2 : ObjectId) (b b2 : AddBody)
  (s0 : Store) (t : AddTask) (cur : Store) :
  u <> u2 -> taskAgrees u b s0 t cur ->
  hasEntry u2 b2 (fst (stepTask opts t cur)) = hasEntry u2 b2 cur.
Proof.
  intros Hne.
  destruct t as [now u' b' | now u' b' e | out]; cbn [taskAgrees stepTask];
    try reflexivity.
  intros (-> & -> & Hc & He).
  destruct e as [d|]; cbn [addPassword_continue fst]; [reflexivity|].
  cbn in He. rewrite <- He in Hc.
  fold (addPassword_continue opts now u b None cur).
  rewrite (addPassword_continue_fresh opts now u b cur Hc). cbn [fst].
  now apply hasEntry_other_owner.
Qed.

Lemma taskAgrees_moved (u : ObjectId) (b : AddBody) (s0 : Store)
  (t : AddTask) (cur cur' : Store) :
  hasEntry u b cur' = hasEntry u b cur ->
  taskAgrees u b s0 t cur -> taskAgrees u b s0 t cur'.
Proof.
  intros H. destruct t; cbn [taskAgrees]; try rewrite H; exact (fun x => x).
Qed.

Lemma runSchedule_agrees (opts : SchemaOptions) (A B : ObjectId)
  (bA bB : AddBody) (s0 : Store) (schedule : list Turn) (x : InFlight) :
  A <> B ->
  taskAgrees A bA s0 (first x) (store x) ->
  taskAgrees B bB s0 (second x) (store x) ->
  taskAgrees A bA s0 (first (runSchedule opts x schedule))
             (store (runSchedule opts x schedule)) /\
  taskAgrees B bB s0 (second (runSchedule opts x schedule))
             (store (runSchedule opts x schedule)).
Proof.
  intros Hne. revert x.
  induction schedule as [|t schedule IH]; intros x H1 H2; [now split|].
  unfold runSchedule in *. cbn [fold_left]. apply IH.
  - destruct t; unfold stepInFlight.
    + pose proof (stepTask_own opts A bA s0 _ _ H1) as K.
      destruct (stepTask opts (first x) (store x)). exact K.
    + pose proof (stepTask_other opts B A bB bA s0 _ _ (not_eq_sym Hne) H2) as K.
      destruct (stepTask opts (second x) (store x)). cbn [first store fst] in *.
      now apply (taskAgrees_moved A bA s0 _ (store x)).
  - destruct t; unfold stepInFlight.
    + pose proof (stepTask_other opts A B bA bB s0 _ _ Hne H1) as K.
      destruct (stepTask opts (first x) (store x)). cbn [second store fst] in *.
      now apply (taskAgrees_moved B bB s0 _ (store x)).
    + pose proof (stepTask_own opts B bB s0 _ _ H2) as K.
      destruct (stepTask opts (second x) (store x)). exact K.
Qed.

Lemma stepTask_rank (opts : SchemaOptions) (t : AddTask) (s : Store) :
  taskRank (snd (stepTask opts t s)) = Nat.min 2 (S (taskRank t)).
Proof.
  destruct t as [now u b | now u b e | out]; cbn [stepTask]; try reflexivity.
  destruct (addPassword_continue opts now u b e s). reflexivity.
Qed.

Lemma runSchedule_rank (opts : SchemaOptions) (schedule : list Turn)
  (x : InFlight) :
  taskRank (first (runSchedule opts x schedule))
  = Nat.min 2 (taskRank (first x) + turnsOf RunFirst schedule) /\
  taskRank (second (runSchedule opts x schedule))
  = Nat.min 2 (taskRank (second x) + turnsOf RunSecond schedule).
Proof.
  assert (Hb : forall t, (taskRank t <= 2)%nat) by (intros []; cbn; lia).
  revert x. induction schedule as [|t schedule IH]; intros x.
  - unfold runSchedule, turnsOf. cbn [fold_left filter List.length].
    rewrite !Nat.add_0_r.
    split; symmetry; apply Nat.min_r, Hb.
  - unfold runSchedule in *. cbn [fold_left].
    destruct (IH (stepInFlight opts x t)) as [I1 I2]. rewrite I1, I2.
    unfold turnsOf in *. destruct t; unfold stepInFlight; cbn [filter].
    + pose proof (stepTask_rank opts (first x) (store x)) as K.
      destruct (stepTask opts (first x) (store x)).
      cbn [first second snd List.length] in *. rewrite K. split; lia.
    + pose proof (stepTask_rank opts (second x) (store x)) as K.
      destruct (stepTask opts (second x) (store x)).
      cbn [first second snd List.length] in *. rewrite K. split; lia.
Qed.

Lemma rank_two_finished (t : AddTask) :
  taskRank t = 2%nat -> exists out, t = Finished out.
Proof. destruct t; cbn; try discriminate. intros _. eexists. reflexivity. Qed.

(** Two add requests of different owners never interfere, however their
    steps interleave: once each has had its two turns, each has been
    answered exactly as [addPassword] would have answered it alone on the
    collection they started from. *)
Theorem addPassword_owners_never_interfere (opts : SchemaOptions)
  (now1 now2 : N) (A B : ObjectId) (bA bB : AddBody) (s : Store)
  (schedule : list Turn)
  (Hne : A <> B)
  (Hfirst : (2 <= turnsOf RunFirst schedule)%nat)
  (Hsecond : (2 <= turnsOf RunSecond schedule)%nat) :
  first (runSchedule opts (pendingPair now1 now2 A B bA bB s) schedule)
  = Finished (snd (addPassword opts now1 A bA s)) /\
  second (runSchedule opts (pendingPair now1 now2 A B bA bB s) schedule)
  = Finished (snd (addPassword opts now2 B bB s)).
Proof.
  set (x0 := pendingPair now1 now2 A B bA bB s).
  destruct (runSchedule_rank opts schedule x0) as [R1 R2].
  destruct (runSchedule_agrees opts A B bA bB s schedule x0 Hne)
    as [G1 G2]; [cbn; auto | cbn; auto |].
  cbn [x0 pendingPair first second taskRank] in R1, R2.
  rewrite Nat.min_l in R1 by lia. rewrite Nat.min_l in R2 by lia.
  destruct (rank_two_finished _ R1) as [o1 E1].
  destruct (rank_two_finished _ R2) as [o2 E2].
  rewrite E1 in G1 |- *. rewrite E2 in G2 |- *.
  cbn [taskAgrees] in G1, G2. rewrite !addPassword_answer.
  now subst o1 o2.
Qed.

Lemma addPassword_owners_never_interfere_witness :
  first (runSchedule plainSchema
           (pendingPair 1%N 2%N alice bob githubBody githubBody emptyStore)
           racingSchedule) = Finished createdMessage /\
  second (runSchedule plainSchema
            (pendingPair 1%N 2%N alice bob githubBody githubBody emptyStore)
            racingSchedule) = Finished createdMessage.
Proof.
  assert (Hne : alice <> bob) by discriminate.
  assert (H1 : (2 <= turnsOf RunFirst racingSchedule)%nat) by (cbn; lia).
  assert (H2 : (2 <= turnsOf RunSecond racingSchedule)%nat) by (cbn; lia).
  exact (addPassword_owners_never_interfere plainSchema 1%N 2%N alice bob
           githubBody githubBody emptyStore racingSchedule Hne H1 H2).
Defined.

(** ** The page and limit parameters *)

Lemma to_uint_nonnil (n : nat) : Nat.to_uint n <> Decimal.Nil.
Proof.
  rewrite <- (Unsigned.of_to n) at 1. rewrite Unsigned.to_of.
  apply unorm_nonnil.
Qed.

Lemma digitsPrefix_cons (c : ascii) (r : string) (v : Z) :
  JS.radixDigit 10 c = Some v ->
  JS.digitsPrefix 10 (String c r) = v :: JS.digitsPrefix 10 r.
Proof. intros H. cbn [JS.digitsPrefix]. now rewrite H. Qed.

(** Reading the digits of a numeral back gives the number it was printed
    from. *)
Lemma digits_value (u : Decimal.uint) (acc : nat) :
  fold_left (fun a d => a * 10 + d)%Z
            (JS.digitsPrefix 10 (NilEmpty.string_of_uint u)) (Z.of_nat acc)
  = Z.of_nat (Nat.of_uint_acc u acc).
Proof.
  revert acc.
  induction u as [|u IH|u IH|u IH|u IH|u IH|u IH|u IH|u IH|u IH|u IH];
    intros acc; cbn [NilEmpty.string_of_uint Nat.of_uint_acc];
    [reflexivity| ..];
    erewrite digitsPrefix_cons by reflexivity;
    cbn [fold_left]; rewrite <- IH; f_equal;
    match goal with
    | |- context [Z.of_nat (nat_of_ascii ?c)] =>
        let v := eval vm_compute in (Z.of_nat (nat_of_ascii c)) in
        change (Z.of_nat (nat_of_ascii c)) with v
    end;
    rewrite Nat.tail_mul_spec; lia.
Qed.

(** A numeral has no white space, no sign and no [0x] in front. *)
Lemma numeral_shape (u : Decimal.uint) :
  u <> Decimal.Nil ->
  JS.stripPrefix (snd (JS.stripSign (JS.trimStart (NilEmpty.string_of_uint u))))
  = (10%Z, NilEmpty.string_of_uint u) /\
  fst (JS.stripSign (JS.trimStart (NilEmpty.string_of_uint u))) = 1%Z /\
  JS.digitsPrefix 10 (NilEmpty.string_of_uint u) <> [].
Proof.
  intros Hu. destruct u as [|u|u|u|u|u|u|u|u|u|u]; [contradiction| ..];
    try (split; [reflexivity|]; split; [reflexivity | discriminate]).
  destruct u; (split; [reflexivity|]; split; [reflexivity | discriminate]).
Qed.

Lemma parseInt_numeral (n : nat) :
  JS.parseInt (Some (JS.showNat n)) = JS.toDouble (Z.of_nat n).
Proof.
  unfold JS.parseInt, JS.showNat.
  destruct (numeral_shape (Nat.to_uint n) (to_uint_nonnil n)) as (Hp & Hs & Hd).
  destruct (JS.stripSign (JS.trimStart (NilEmpty.string_of_uint (Nat.to_uint n))))
    as [sign s1]. cbn [fst snd] in *. subst sign. rewrite Hp.
  pose proof (digits_value (Nat.to_uint n) 0) as Hv.
  change (Nat.of_uint_acc (Nat.to_uint n) 0)
    with (Nat.of_uint (Nat.to_uint n)) in Hv.
  rewrite Unsigned.of_to in Hv. unfold JS.mathInt.
  destruct (JS.digitsPrefix 10 (NilEmpty.string_of_uint (Nat.to_uint n)));
    [contradiction|].
  cbn [Z.of_nat] in Hv. rewrite Hv. f_equal. lia.
Qed.

(** A [page] or [limit] parameter written as the decimal numeral of a
    number n is parsed to the double nearest to n.  For every n up to 2^53
    that double is n itself, so the parameter is honoured: the handler asks
    for page n, or for n entries per page; only n = 0 is replaced, by page 1
    and limit 10. *)
Theorem getPassword_numeral_honoured (n : nat) :
  getPassword_page (pageQuery (JS.showNat n))
  = JS.orDefault (JS.toDouble (Z.of_nat n)) 1 /\
  getPassword_limit (limitQuery (JS.showNat n))
  = JS.orDefault (JS.toDouble (Z.of_nat n)) 10 /\
  ((Z.of_nat n <= 2 ^ 53)%Z ->
   getPassword_page (pageQuery (JS.showNat n))
   = (if (n =? 0)%nat then Finite 1 else Finite (Z.of_nat n)) /\
   getPassword_limit (limitQuery (JS.showNat n))
   = (if (n =? 0)%nat then Finite 10 else Finite (Z.of_nat n))).
Proof.
  unfold getPassword_page, getPassword_limit, pageQuery, limitQuery.
  cbn [query_page query_limit]. rewrite parseInt_numeral.
  split; [reflexivity|]. split; [reflexivity|].
  intros Hn. rewrite toDouble_exact by lia.
  unfold JS.orDefault.
  destruct n as [|n]; [split; reflexivity|].
  replace (Z.of_nat (S n) =? 0)%Z with false
    by (symmetry; apply Z.eqb_neq; lia).
  split; reflexivity.
Qed.

Lemma getPassword_numeral_honoured_witness :
  getPassword_page (pageQuery "25") = Finite 25 /\
  getPassword_limit (limitQuery "25") = Finite 25.
Proof.
  apply (proj2 (proj2 (getPassword_numeral_honoured 25))).
  vm_compute. discriminate.
Defined.

(** Whatever the query string holds, the handler never asks [paginate] for
    page 0 or for 0 entries per page. *)
Theorem getPassword_never_zero (q : Query) :
  getPassword_page q <> Finite 0 /\ getPassword_limit q <> Finite 0.
Proof.
  unfold getPassword_page, getPassword_limit.
  split; apply orDefault_nonzero; discriminate.
Qed.

(** ** Answers that are not a success *)

Lemma removeFirst_length (f : Filter) (l : list PasswordDoc) :
  List.length (PasswordModel.removeFirst f l) = List.length l ->
  PasswordModel.removeFirst f l = l.
Proof.
  induction l as [|x l IH]; cbn [PasswordModel.removeFirst]; [reflexivity|].
  destruct (matches f x).
  - cbn [List.length]. intros H. exfalso. lia.
  - cbn [List.length]. intros H. f_equal. apply IH. lia.
Qed.

Lemma removeFirst_shorter (f : Filter) (l : list PasswordDoc) :
  (List.length (PasswordModel.removeFirst f l) <= List.length l)%nat.
Proof.
  induction l as [|x l IH]; cbn [PasswordModel.removeFirst List.length];
    [lia|].
  destruct (matches f x); cbn [List.length]; lia.
Qed.

Lemma filter_full_length {A : Type} (p : A -> bool) (l : list A) :
  List.length (filter p l) = List.length l -> filter p l = l.
Proof.
  intros H. apply filter_all_true. apply Forall_forall.
  apply forallb_forall. now apply filter_length_forallb.
Qed.

(** A request that is not answered with a 2xx status has changed nothing:
    the 400, 404 and 500 answers and a rejected promise all leave the
    collection exactly as it was. *)
Theorem handle_error_keeps_store (opts : SchemaOptions) (r : Request)
  (s : Store) (Herr : isSuccess (snd (handle opts r s)) = false) :
  fst (handle opts r s) = s.
Proof.
  destruct r as [now u b | now u i upd | u [pid|] | u [[|i ids]|]];
    cbn [handle] in *; try reflexivity.
  - destruct (PasswordModel.findOne (addPassword_filter u b) s) as [d|] eqn:E.
    + now rewrite (addPassword_found opts now u b s d E).
    + rewrite (addPassword_created opts now u b s E) in Herr.
      discriminate Herr.
  - destruct (editPassword_cases opts now u i upd s)
      as [[m E] | [[_ [e E]] | [d [_ E]]]]; rewrite E in *; cbn [fst snd] in *;
      try reflexivity.
    discriminate Herr.
  - unfold deleteSinglePassword, PasswordModel.deleteOne,
      PasswordModel.withDocs in *.
    pose proof (removeFirst_shorter (deleteSinglePassword_filter u pid) (docs s))
      as Hle.
    destruct (List.length (docs s)
              - List.length (PasswordModel.removeFirst
                               (deleteSinglePassword_filter u pid) (docs s))
              =? 0)%nat eqn:E; cbn [fst snd] in *; [|discriminate Herr].
    apply Nat.eqb_eq in E. rewrite removeFirst_length by lia.
    apply store_eta.
  - unfold deleteMultiplePasswords, PasswordModel.deleteMany,
      PasswordModel.withDocs in *.
    set (f := deleteMultiplePasswords_filter u (i :: ids)) in *.
    pose proof (filter_length_le (fun d => negb (matches f d)) (docs s)) as Hle.
    destruct (List.length (docs s)
              - List.length (filter (fun d => negb (matches f d)) (docs s))
              =? 0)%nat eqn:E; cbn [fst snd] in *; [|discriminate Herr].
    apply Nat.eqb_eq in E. rewrite filter_full_length by lia.
    apply store_eta.
Qed.

Lemma handle_error_keeps_store_witness :
  snd (handle plainSchema (ReqDeleteOne alice (Some 2%N)) sharedStore)
  = notFoundDelete /\
  fst (handle plainSchema (ReqDeleteOne alice (Some 2%N)) sharedStore)
  = sharedStore.
Proof.
  split; [reflexivity|].
  exact (handle_error_keeps_store plainSchema (ReqDeleteOne alice (Some 2%N))
           sharedStore eq_refl).
Defined.
